(** * PyInputPlus: the prompt / validate / retry loop

    A shallow embedding of [pyinputplus/__init__.py]: the bound-check helper
    [_checkLimitAndTimeout], the core loop [_genericInput] and the typed
    wrappers [inputRegex], [inputChoice] and [inputMenu].

    Conventions of the embedding.
    - Python [str] values are Rocq strings whose characters are code points
      below 256.
    - A Python [float] is an IEEE 754 binary64 number, with the arithmetic
      and the comparisons of the processor: the readings of [time.time()]
      and [startTime + timeout] are computed as the interpreter computes
      them, rounding included.  A Python [int] is an integer without bound;
      adding one to a [float] converts it first, which raises
      [OverflowError] beyond the range of [float].
    - The interpreter's surroundings are a [World]: the readings that
      successive calls of [time.time()] return, and the trace of everything
      the program did (text written, lines read, clock reads, calls of the
      caller-supplied functions).  Code runs in a state-and-exception monad
      over it.
    - Standard input is the list of lines still to be read; [input()] on an
      exhausted list raises [EOFError], as Python does at end of file. *)

From Stdlib Require Import String Ascii List ZArith QArith Bool Lia DecimalString Floats.
Import ListNotations.

Local Open Scope float_scope.
Local Open Scope string_scope.

(** ** Python values *)

(** What calling a Python function on a [str] does: it returns a [str], it
    raises an [Exception] whose message is [msg], or it raises a
    [BaseException] that is not an [Exception] ([KeyboardInterrupt],
    [SystemExit], ...), which no [except Exception] clause catches. *)
Inductive CallResult : Type :=
| Returns (s : string)
| Raises (msg : string)
| RaisesBaseException (msg : string).

Definition Callable : Type := string -> CallResult.

(** The values an argument of [_genericInput] can be bound to. *)
#[warnings="-register-all"]
Inductive PyVal : Type :=
| PyNone
| PyBool (b : bool)
| PyInt (n : Z)
| PyFloat (x : float)
| PyStr (s : string)
| PyList (items : list PyVal)
| PyFunction (f : Callable)           (* def / lambda: type(lambda x: x) *)
| PyMethodDescriptor (f : Callable)   (* such as str.upper: type(str.upper) *)
| PyBuiltinFunction (f : Callable).   (* such as len: callable, neither of the two *)

Inductive PyType : Type :=
| NoneType | bool_t | int_t | float_t | str_t | list_t
| FUNC_TYPE | METHOD_DESCRIPTOR_TYPE | builtin_function_t.

Definition type_of (v : PyVal) : PyType :=
  match v with
  | PyNone => NoneType
  | PyBool _ => bool_t
  | PyInt _ => int_t
  | PyFloat _ => float_t
  | PyStr _ => str_t
  | PyList _ => list_t
  | PyFunction _ => FUNC_TYPE
  | PyMethodDescriptor _ => METHOD_DESCRIPTOR_TYPE
  | PyBuiltinFunction _ => builtin_function_t
  end.

Definition PyType_eqb (a b : PyType) : bool :=
  match a, b with
  | NoneType, NoneType | bool_t, bool_t | int_t, int_t | float_t, float_t
  | str_t, str_t | list_t, list_t | FUNC_TYPE, FUNC_TYPE
  | METHOD_DESCRIPTOR_TYPE, METHOD_DESCRIPTOR_TYPE
  | builtin_function_t, builtin_function_t => true
  | _, _ => false
  end.

(** [bool] is a subclass of [int]; there is no other subclassing among the
    types above. *)
Definition issubclass (a b : PyType) : bool :=
  PyType_eqb a b ||
  match a, b with
  | bool_t, int_t => true
  | _, _ => false
  end.

Definition isinstance (v : PyVal) (classes : list PyType) : bool :=
  existsb (issubclass (type_of v)) classes.

(** [v is not None] *)
Definition is_not_None (v : PyVal) : bool :=
  match v with PyNone => false | _ => true end.

(** The callable behind a value that Python can call. *)
Definition callable_of (v : PyVal) : option Callable :=
  match v with
  | PyFunction f | PyMethodDescriptor f | PyBuiltinFunction f => Some f
  | _ => None
  end.

(** ** str.strip *)

(** [str.isspace] on code points below 256. *)
Definition is_whitespace (c : ascii) : bool :=
  let n := nat_of_ascii c in
  ((9 <=? n) && (n <=? 13) || (28 <=? n) && (n <=? 32) || (n =? 133) || (n =? 160))%nat.

Fixpoint in_chars (chars : string) (c : ascii) : bool :=
  match chars with
  | EmptyString => false
  | String d chars' => Ascii.eqb c d || in_chars chars' c
  end.

Fixpoint lstrip (p : ascii -> bool) (s : string) : string :=
  match s with
  | EmptyString => EmptyString
  | String c s' => if p c then lstrip p s' else s
  end.

Fixpoint rstrip (p : ascii -> bool) (s : string) : string :=
  match s with
  | EmptyString => EmptyString
  | String c s' =>
      match rstrip p s' with
      | EmptyString => if p c then EmptyString else String c EmptyString
      | r => String c r
      end
  end.

(** [s.strip()] is [str_strip is_whitespace s]; [s.strip(chars)] is
    [str_strip (in_chars chars) s]. *)
Definition str_strip (p : ascii -> bool) (s : string) : string :=
  rstrip p (lstrip p s).

(** ** Exceptions *)

Inductive PyExc : Type :=
| PyInputPlusException (msg : string)
| TimeoutException
| RetryLimitException
| PySimpleValidateException (msg : string)   (* raised by pysimplevalidate *)
| EOFError                                   (* input() at end of file *)
| TypeError (msg : string)                   (* calling a non-callable, ... *)
| OverflowError                              (* int too large to convert to float *)
| RaisedByCallee (msg : string)              (* an Exception a caller-supplied
                                                function let escape *)
| BaseExceptionFromCallee (msg : string).    (* a BaseException other than an
                                                Exception, from such a function *)

(** ** The world and the monad *)

Inductive Event : Type :=
| EvPrint (text : string) (end_ : string)   (* print(text, end=end_) *)
| EvInput (line : string)                   (* input() returned line *)
| EvTime (t : float)                            (* time.time() returned t *)
| EvApplyFunc (arg : string)                (* applyFunc(arg) was called *)
| EvValidationFunc (arg : string)           (* validationFunc(arg) was called *)
| EvPostValidateApplyFunc (arg : string).   (* postValidateApplyFunc(arg) *)

Record World : Type := mkWorld {
  clock : nat -> float;  (* the n-th call of time.time() returns clock n *)
  ticks : nat;           (* how many calls of time.time() were made *)
  trace : list Event     (* what happened so far, oldest first *)
}.

Inductive Res (A : Type) : Type :=
| Val (a : A)
| Exc (e : PyExc).
Arguments Val {A} a.
Arguments Exc {A} e.

Definition M (A : Type) : Type := World -> Res A * World.

Definition ret {A} (a : A) : M A := fun w => (Val a, w).

Definition raise {A} (e : PyExc) : M A := fun w => (Exc e, w).

Definition bind {A B} (m : M A) (k : A -> M B) : M B :=
  fun w =>
    match m w with
    | (Val a, w') => k a w'
    | (Exc e, w') => (Exc e, w')
    end.

Declare Scope py_scope.
Delimit Scope py_scope with py.
Notation "x <- m ;; k" := (bind m (fun x => k))
  (at level 61, m at next level, right associativity) : py_scope.
Notation "m ;; k" := (bind m (fun _ => k))
  (at level 61, right associativity) : py_scope.
Local Open Scope py_scope.

Definition emit (e : Event) : M unit :=
  fun w => (Val tt, mkWorld (clock w) (ticks w) (trace w ++ [e])).

(** [print(text, end=end_)] *)
Definition print (text end_ : string) : M unit := emit (EvPrint text end_).

(** [time.time()] *)
Definition time_time : M float :=
  fun w =>
    let t := clock w (ticks w) in
    (Val t, mkWorld (clock w) (S (ticks w)) (trace w ++ [EvTime t])).

(** ** Numbers *)

(** An [int] or a [float]: what [timeout] is bound to when it is not [None]. *)
Inductive Number : Type :=
| IntNumber (n : Z)
| FloatNumber (x : float).

(** [float(n)] for an [int]: the nearest [float], ties to even; [None] stands
    for [OverflowError], raised when that rounding leaves the range of
    [float]. *)
Definition float_of_int (n : Z) : option float :=
  let x := SF2Prim (binary_normalize prec emax n 0 false) in
  if PrimFloat.is_infinity x then None else Some x.

(** [x + y] for a [float] [x]: [float.__add__] converts an [int] operand and
    adds in floating point. *)
Definition float_add (x : float) (y : Number) : option float :=
  match y with
  | FloatNumber y => Some (x + y)%float
  | IntNumber n =>
      match float_of_int n with
      | Some y => Some (x + y)%float
      | None => None
      end
  end.

(** ** _checkLimitAndTimeout *)

(** The helper returns its result instead of raising: [None], the default,
    or an exception object. *)
Inductive CheckResult : Type :=
| CheckNone                      (* return None *)
| CheckDefault (d : string)      (* return default *)
| CheckException (e : PyExc).    (* return TimeoutException() / RetryLimitException() *)

Definition _checkLimitAndTimeout (default : option string) (startTime : float)
    (timeout : option Number) (tries : Z) (limit : option Z) : M CheckResult :=
  (* timeout is not None and startTime + timeout < time.time():
     [and] short-circuits, the sum is computed before time.time() is called,
     and the clock is read only when timeout is set and the sum exists *)
  timedOut <- match timeout with
              | Some timeout =>
                  match float_add startTime timeout with
                  | Some deadline =>
                      now <- time_time ;;
                      ret (deadline <? now)%float
                  | None => raise OverflowError
                  end
              | None => ret false
              end ;;
  if timedOut then
    match default with
    | Some default => ret (CheckDefault default)
    | None => ret (CheckException TimeoutException)
    end
  else
    (* limit is not None and tries >= limit *)
    if match limit with
       | Some limit => (limit <=? tries)%Z
       | None => false
       end
    then
      match default with
      | Some default => ret (CheckDefault default)
      | None => ret (CheckException RetryLimitException)
      end
    else ret CheckNone.

(** ** _genericInput *)

(** The local variables of [_genericInput] once its argument checks have
    passed.  [postValidateApplyFunc] stays a raw value: the function does
    not check it. *)
Record Config : Type := mkConfig {
  prompt : string;
  default : option string;
  timeout : option Number;
  limit : option Z;
  strip : PyVal;
  applyFunc : option Callable;
  validationFunc : Callable;
  postValidateApplyFunc : PyVal
}.

(** Which [return] statement of [_genericInput] produced the value. *)
Inductive ReturnSite : Type :=
| BlankInputDefault      (* line 148: return default *)
| BoundDefault           (* line 163: return checkResult *)
| PostValidated          (* line 171: return postValidateApplyFunc(userInput) *)
| Validated.             (* line 173: return userInput *)

Definition Returned : Type := (ReturnSite * string)%type.

Definition newline : string := String "010" "".

(** Lines 140-144.  [strip] is [None], a [bool] or a [str] here: no other
    value gets past the check of line 122. *)
Definition apply_strip (strip : PyVal) (userInput : string) : string :=
  match strip with
  | PyBool true => str_strip is_whitespace userInput       (* strip is True *)
  | PyStr chars => str_strip (in_chars chars) userInput    (* strip is not False *)
  | _ => userInput                                         (* None, False *)
  end.

(** The [while True] loop, lines 132-173.  Every iteration calls [input()],
    so the loop is a recursion on the lines that standard input still
    holds. *)
Fixpoint loop (cfg : Config) (startTime : float) (tries : Z) (stdin : list string)
    {struct stdin} : M Returned :=
  print (prompt cfg) "" ;;
  match stdin with
  | [] => raise EOFError
  | userInput :: stdin =>
      emit (EvInput userInput) ;;
      let tries := (tries + 1)%Z in
      let userInput := apply_strip (strip cfg) userInput in
      match (if (userInput =? "")%string then default cfg else None) with
      | Some default => ret (BlankInputDefault, default)
      | None =>
          userInput <- match applyFunc cfg with
                       | Some applyFunc =>
                           emit (EvApplyFunc userInput) ;;
                           match applyFunc userInput with
                           | Returns s => ret s
                           | Raises msg => raise (RaisedByCallee msg)
                           | RaisesBaseException msg =>
                               raise (BaseExceptionFromCallee msg)
                           end
                       | None => ret userInput
                       end ;;
          emit (EvValidationFunc userInput) ;;
          match validationFunc cfg userInput with
          | Raises exc =>
              checkResult <- _checkLimitAndTimeout (default cfg) startTime
                               (timeout cfg) tries (limit cfg) ;;
              match checkResult with
              | CheckDefault d => ret (BoundDefault, d)
              | CheckNone => print exc newline ;; loop cfg startTime tries stdin
              | CheckException e => raise e
              end
          | RaisesBaseException msg =>
              (* not an Exception: the except clause of line 159 lets it pass *)
              raise (BaseExceptionFromCallee msg)
          | Returns _ =>
              if is_not_None (postValidateApplyFunc cfg) then
                match callable_of (postValidateApplyFunc cfg) with
                | Some postValidateApplyFunc =>
                    emit (EvPostValidateApplyFunc userInput) ;;
                    match postValidateApplyFunc userInput with
                    | Returns s => ret (PostValidated, s)
                    | Raises msg => raise (RaisedByCallee msg)
                    | RaisesBaseException msg =>
                        raise (BaseExceptionFromCallee msg)
                    end
                | None => raise (TypeError "object is not callable")
                end
              else ret (Validated, userInput)
          end
      end
  end.

(** Lines 129-173: take the start time, then loop. *)
Definition session (cfg : Config) (stdin : list string) : M Returned :=
  startTime <- time_time ;;
  loop cfg startTime 0 stdin.

(** [if not ok: raise e] *)
Definition raise_unless (ok : bool) (e : PyExc) : M unit :=
  if ok then ret tt else raise e.

(** The typed reading of an argument that has passed its [isinstance]
    check.  [None] stands for Python's [None]. *)
Definition str_of (v : PyVal) : string :=
  match v with PyStr s => s | _ => "" end.

Definition optional_str_of (v : PyVal) : option string :=
  match v with PyStr s => Some s | _ => None end.

Definition optional_int_of (v : PyVal) : option Z :=
  match v with
  | PyInt n => Some n
  | PyBool b => Some (if b then 1 else 0)%Z
  | _ => None
  end.

Definition optional_number_of (v : PyVal) : option Number :=
  match v with
  | PyInt n => Some (IntNumber n)
  | PyBool b => Some (IntNumber (if b then 1 else 0))
  | PyFloat x => Some (FloatNumber x)
  | _ => None
  end.

(** Calling a value that is not callable raises a [TypeError], which the
    [except Exception] of the loop would take for a rejection. *)
Definition function_of (v : PyVal) : Callable :=
  match callable_of v with
  | Some f => f
  | None => fun _ => Raises "object is not callable"
  end.

(** ** The part of pysimplevalidate that the module calls

    [import pysimplevalidate as pysv]: another package, whose functions are
    taken as given.  A parameter check answers [None] when it returns and
    [Some msg] when it raises [PySimpleValidateException(msg)]. *)
Record PySimpleValidate : Type := {
  _validateGenericParameters :
    forall (blank strip whitelistRegexes blacklistRegexes : PyVal), option string;
  _validateParamsFor_validateChoice :
    forall (choices blank strip whitelistRegexes blacklistRegexes
            numbered lettered caseSensitive : PyVal), option string;
  validateChoice :
    forall (value : string)
           (choices blank strip whitelistRegexes blacklistRegexes
            numbered lettered caseSensitive : PyVal), CallResult;
  validateRegex :
    forall (value : string)
           (regex flags blank strip whitelistRegexes blacklistRegexes : PyVal),
      CallResult
}.

Definition raising (check : option string) : M unit :=
  match check with
  | None => ret tt
  | Some msg => raise (PySimpleValidateException msg)
  end.

Section PyInputPlus.

Variable pysv : PySimpleValidate.

Definition _genericInput
    (prompt default blank timeout limit strip whitelistRegexes blacklistRegexes
     applyFunc validationFunc postValidateApplyFunc : PyVal)
    (stdin : list string) : M Returned :=
  raising (_validateGenericParameters pysv blank strip whitelistRegexes blacklistRegexes) ;;
  raise_unless (isinstance prompt [str_t])
    (PyInputPlusException "prompt argument must be a str") ;;
  raise_unless (isinstance default [str_t; NoneType])
    (PyInputPlusException "default argument must be a str or None") ;;
  (* blank = bool(blank): blank is not used after this line *)
  raise_unless (isinstance timeout [int_t; float_t; NoneType])
    (PyInputPlusException "timeout argument must be an int or float") ;;
  raise_unless (isinstance limit [int_t; NoneType])
    (PyInputPlusException "limit argument must be an int") ;;
  raise_unless (isinstance strip [str_t; NoneType; bool_t])
    (PyInputPlusException "strip argument must be a str, None, or bool") ;;
  raise_unless (isinstance validationFunc [FUNC_TYPE; METHOD_DESCRIPTOR_TYPE])
    (PyInputPlusException "validationFunc argument must be a function") ;;
  raise_unless (isinstance applyFunc [FUNC_TYPE; METHOD_DESCRIPTOR_TYPE; NoneType])
    (PyInputPlusException "applyFunc argument must be a function") ;;
  session {| prompt := str_of prompt;
             default := optional_str_of default;
             timeout := optional_number_of timeout;
             limit := optional_int_of limit;
             strip := strip;
             applyFunc := callable_of applyFunc;
             validationFunc := function_of validationFunc;
             postValidateApplyFunc := postValidateApplyFunc |}
          stdin.

(** ** The wrappers *)

(** [sep.join(items)] *)
Fixpoint join (sep : string) (items : list string) : string :=
  match items with
  | [] => ""
  | [x] => x
  | x :: rest => x ++ sep ++ join sep rest
  end.

(** [str(n)] for a non-negative [int]. *)
Definition str_of_nat (n : nat) : string :=
  DecimalString.NilZero.string_of_uint (Nat.to_uint n).

(** [chr(n)], for [n] below 256. *)
Definition chr (n : nat) : string := String (ascii_of_nat n) "".

(** [[f(i, choices[i]) for i in range(len(choices))]], from index [i] on. *)
Fixpoint enumerate_from {A} (i : nat) (f : nat -> string -> A)
    (choices : list string) : list A :=
  match choices with
  | [] => []
  | c :: rest => f i c :: enumerate_from (S i) f rest
  end.

Definition py_choices (choices : list string) : PyVal :=
  PyList (map PyStr choices).

(** Lines 356-363. *)
Definition inputRegex_validationFunc
    (regex flags blank strip whitelistRegexes blacklistRegexes : PyVal) : Callable :=
  fun value =>
    validateRegex pysv value (PyStr "") (PyInt 0) blank strip
      whitelistRegexes blacklistRegexes.

Definition inputRegex
    (regex flags prompt default blank timeout limit strip whitelistRegexes
     blacklistRegexes applyFunc postValidateApplyFunc : PyVal)
    (stdin : list string) : M Returned :=
  let validationFunc :=
    PyFunction (inputRegex_validationFunc regex flags blank strip
                  whitelistRegexes blacklistRegexes) in
  _genericInput prompt default blank timeout limit strip whitelistRegexes
    blacklistRegexes applyFunc validationFunc postValidateApplyFunc stdin.

(** Lines 240-257. *)
Definition inputChoice_validationFunc (choices : list string)
    (blank strip whitelistRegexes blacklistRegexes
     numbered lettered caseSensitive : PyVal) : Callable :=
  fun value =>
    validateChoice pysv value (py_choices choices) blank strip
      whitelistRegexes blacklistRegexes
      (PyBool false) (PyBool false) (PyBool false).

Definition is_default_prompt (prompt : PyVal) : bool :=
  match prompt with
  | PyStr s => (s =? "_default")%string
  | _ => false
  end.

Definition inputChoice (choices : list string)
    (prompt default blank timeout limit strip whitelistRegexes blacklistRegexes
     applyFunc postValidateApplyFunc numbered lettered caseSensitive : PyVal)
    (stdin : list string) : M Returned :=
  raising (_validateParamsFor_validateChoice pysv (py_choices choices) blank strip
             whitelistRegexes blacklistRegexes numbered lettered caseSensitive) ;;
  let validationFunc :=
    PyFunction (inputChoice_validationFunc choices blank strip whitelistRegexes
                  blacklistRegexes numbered lettered caseSensitive) in
  let prompt :=
    if is_default_prompt prompt
    then PyStr ("Please select one of: " ++ join ", " choices ++ "." ++ newline)
    else prompt in
  _genericInput prompt default blank timeout limit strip whitelistRegexes
    blacklistRegexes applyFunc validationFunc postValidateApplyFunc stdin.

(** Lines 260-284.  [numbered] and [lettered] are tested for truth; they are
    [bool]s once [_validateParamsFor_validateChoice] has returned. *)
Definition truthy (v : PyVal) : bool :=
  match v with
  | PyNone => false
  | PyBool b => b
  | PyInt n => negb (n =? 0)%Z
  | PyFloat x => negb (x =? 0)%float
  | PyStr s => negb (s =? "")%string
  | PyList items => match items with [] => false | _ => true end
  | _ => true
  end.

Definition inputMenu_validationFunc (choices : list string)
    (blank strip whitelistRegexes blacklistRegexes
     numbered lettered caseSensitive : PyVal) : Callable :=
  fun value =>
    validateChoice pysv value (py_choices choices) blank strip
      whitelistRegexes blacklistRegexes
      (PyBool false) (PyBool false) (PyBool false).

Definition inputMenu_prompt (choices : list string) (numbered lettered : PyVal)
    : string :=
  "Please select one of the following:" ++ newline ++
  (if truthy numbered then
     join newline
       (enumerate_from 0 (fun i c => str_of_nat (i + 1) ++ ". " ++ c) choices)
   else if truthy lettered then
     join newline
       (enumerate_from 0 (fun i c => chr (65 + i) ++ ". " ++ c) choices)
   else
     join newline (map (fun choice => "* " ++ choice) choices)) ++
  newline.

Definition inputMenu (choices : list string)
    (prompt default blank timeout limit strip whitelistRegexes blacklistRegexes
     applyFunc postValidateApplyFunc numbered lettered caseSensitive : PyVal)
    (stdin : list string) : M Returned :=
  raising (_validateParamsFor_validateChoice pysv (py_choices choices) blank strip
             whitelistRegexes blacklistRegexes numbered lettered caseSensitive) ;;
  let validationFunc :=
    PyFunction (inputMenu_validationFunc choices blank strip whitelistRegexes
                  blacklistRegexes numbered lettered caseSensitive) in
  let prompt :=
    if is_default_prompt prompt
    then PyStr (inputMenu_prompt choices numbered lettered)
    else prompt in
  _genericInput prompt default blank timeout limit strip whitelistRegexes
    blacklistRegexes applyFunc validationFunc postValidateApplyFunc stdin.

End PyInputPlus.

(** ** Observations on traces and runs *)

Definition is_input (e : Event) : bool :=
  match e with EvInput _ => true | _ => false end.

Definition is_post (e : Event) : bool :=
  match e with EvPostValidateApplyFunc _ => true | _ => false end.

(** How many lines a trace shows to have been read. *)
Definition reads (evs : list Event) : nat := length (filter is_input evs).

(** How many calls of [postValidateApplyFunc] a trace shows. *)
Definition post_calls (evs : list Event) : nat := length (filter is_post evs).

(** The world after more events, and after one more reading of the clock. *)
Definition logged (evs : list Event) (w : World) : World :=
  mkWorld (clock w) (ticks w) (trace w ++ evs).

Definition clock_read (w : World) : World :=
  mkWorld (clock w) (S (ticks w)) (trace w ++ [EvTime (clock w (ticks w))]).

(** The text that reaches the pre-validation transform: the line, stripped. *)
Definition stripped (cfg : Config) (line : string) : string :=
  apply_strip (strip cfg) line.

(** The validation capability rejects every candidate. *)
Definition always_rejects (cfg : Config) : Prop :=
  forall s, exists msg, validationFunc cfg s = Raises msg.

(** The pre-validation transform, when there is one, returns on every text. *)
Definition transform_returns (cfg : Config) : Prop :=
  forall f, applyFunc cfg = Some f -> forall s, exists s', f s = Returns s'.

(** The candidate of an attempt: the stripped line after the transform. *)
Definition candidate (cfg : Config) (line : string) : CallResult :=
  match applyFunc cfg with
  | Some f => f (stripped cfg line)
  | None => Returns (stripped cfg line)
  end.

(** The call of the transform that an attempt logs, if there is a transform. *)
Definition transform_events (cfg : Config) (line : string) : list Event :=
  match applyFunc cfg with
  | Some _ => [EvApplyFunc (stripped cfg line)]
  | None => []
  end.

(** The second test of [_checkLimitAndTimeout], on its own. *)
Definition limit_reached (limit : option Z) (tries : Z) : bool :=
  match limit with
  | Some limit => (limit <=? tries)%Z
  | None => false
  end.

(** [startTime + timeout] cannot be computed: [timeout] is an [int] beyond the
    range of [float]. *)
Definition overflows (timeout : option Number) : bool :=
  match timeout with
  | Some (IntNumber n) =>
      match float_of_int n with
      | Some _ => false
      | None => true
      end
  | _ => false
  end.

(** The first test of [_checkLimitAndTimeout], given the reading [now] of the
    clock: the floating-point sum is below the reading. *)
Definition deadline_passed (startTime : float) (timeout : option Number)
    (now : float) : bool :=
  match timeout with
  | Some timeout =>
      match float_add startTime timeout with
      | Some deadline => (deadline <? now)%float
      | None => false
      end
  | None => false
  end.

(** The number a finite [float] stands for, exactly. *)
Definition exact_value (x : float) : option Q :=
  match Prim2SF x with
  | S754_zero _ => Some 0%Q
  | S754_finite s m e =>
      let v := match e with
               | Z0 => inject_Z (Zpos m)
               | Zpos p => inject_Z (Zpos m * Z.pow_pos 2 p)
               | Zneg p => Qmake (Zpos m) (Pos.pow 2 p)
               end in
      Some (if s then Qopp v else v)
  | _ => None
  end.

(** Whether [now - startTime], taken exactly, exceeds [timeout]. *)
Definition elapsed_exceeds (startTime : float) (timeout : float) (now : float)
    : bool :=
  match exact_value startTime, exact_value timeout, exact_value now with
  | Some s, Some t, Some n => negb (Qle_bool (n - s) t)
  | _, _, _ => false
  end.

(** What the helper answers once a bound is reached. *)
Definition stop_with (default : option string) (e : PyExc) : CheckResult :=
  match default with
  | Some d => CheckDefault d
  | None => CheckException e
  end.

(** What the loop does with that answer: return the default or raise. *)
Definition stopped (default : option string) (e : PyExc) (w : World)
    : Res Returned * World :=
  match default with
  | Some d => (Val (BoundDefault, d), w)
  | None => (Exc e, w)
  end.

(** The world after the helper: the clock is read when a timeout is set. *)
Definition after_check (timeout : option Number) (w : World) : World :=
  match timeout with
  | Some _ => clock_read w
  | None => w
  end.

(** The reading that the helper logs, if it reads the clock. *)
Definition check_events (timeout : option Number) (w : World) : list Event :=
  match timeout with
  | Some _ => [EvTime (clock w (ticks w))]
  | None => []
  end.

(** The [isinstance] tests of lines 113-127, together. *)
Definition checked_arguments_ok
    (prompt default timeout limit strip applyFunc validationFunc : PyVal) : bool :=
  isinstance prompt [str_t]
  && isinstance default [str_t; NoneType]
  && isinstance timeout [int_t; float_t; NoneType]
  && isinstance limit [int_t; NoneType]
  && isinstance strip [str_t; NoneType; bool_t]
  && isinstance validationFunc [FUNC_TYPE; METHOD_DESCRIPTOR_TYPE]
  && isinstance applyFunc [FUNC_TYPE; METHOD_DESCRIPTOR_TYPE; NoneType].

(** The configuration with another default. *)
Definition with_default (d : option string) (cfg : Config) : Config :=
  {| prompt := prompt cfg; default := d; timeout := timeout cfg;
     limit := limit cfg; strip := strip cfg; applyFunc := applyFunc cfg;
     validationFunc := validationFunc cfg;
     postValidateApplyFunc := postValidateApplyFunc cfg |}.

(** The same outcome with [d] in place of a returned default. *)
Definition with_returned_default (d : string) (r : Res Returned) : Res Returned :=
  match r with
  | Val (BlankInputDefault, _) => Val (BlankInputDefault, d)
  | Val (BoundDefault, _) => Val (BoundDefault, d)
  | r => r
  end.

Definition is_default_site (site : ReturnSite) : bool :=
  match site with
  | BlankInputDefault | BoundDefault => true
  | PostValidated | Validated => false
  end.

(** ** Sample callers and worlds *)

(** A clock whose successive readings are [readings], then 0. *)
Definition clock_of (readings : list float) : nat -> float :=
  fun n => nth n readings 0%float.

Definition fresh_world (readings : list float) : World :=
  mkWorld (clock_of readings) 0 [].

(** A validation function that accepts [good] only. *)
Definition accept_only (good : string) : Callable :=
  fun value => if (value =? good)%string then Returns "" else Raises "invalid".

Definition reject_all : Callable := fun _ => Raises "invalid".

Definition accept_all : Callable := fun _ => Returns "".

Definition upper_first : Callable :=
  fun value =>
    match value with
    | EmptyString => Raises "string index out of range"
    | String c _ => Returns (String c "" ++ "!")
    end.

(** How a sample validator names a keyword argument it was given. *)
Definition describe (v : PyVal) : string :=
  match v with
  | PyNone => "None"
  | PyBool true => "True"
  | PyBool false => "False"
  | PyInt n => DecimalString.NilZero.string_of_int (Z.to_int n)
  | PyStr s => "'" ++ s ++ "'"
  | _ => "..."
  end.

(** A stand-in for pysimplevalidate whose parameter checks pass and whose
    validators reject every value, naming in the message the domain
    parameters they were called with. *)
Definition reporting_pysv : PySimpleValidate :=
  {| _validateGenericParameters := fun _ _ _ _ => None;
     _validateParamsFor_validateChoice := fun _ _ _ _ _ _ _ _ => None;
     validateChoice :=
       fun _ _ _ _ _ _ numbered lettered caseSensitive =>
         Raises ("numbered=" ++ describe numbered ++ " lettered=" ++ describe lettered
                 ++ " caseSensitive=" ++ describe caseSensitive);
     validateRegex :=
       fun _ regex flags _ _ _ _ =>
         Raises ("regex=" ++ describe regex ++ " flags=" ++ describe flags) |}.

(** A session of three allowed attempts, every one of them rejected. *)
Definition three_tries (timeout : option Number) : Config :=
  mkConfig "> " None timeout (Some 3%Z) (PyBool true) None reject_all PyNone.

(** ** inputYesNo *)

(** What a wrapper that works on the result of [_genericInput] ends with:
    a value, an exception of [_genericInput], or the [IndexError] of
    indexing an empty [str]. *)
Inductive WrapperOutcome : Type :=
| Result (value : string)
| Propagated (e : PyExc)
| IndexError (msg : string).

Section YesNo.

Variable pysv : PySimpleValidate.

(** [pysv.validateYesNo], taken as given like the rest of pysimplevalidate. *)
Variable validateYesNo :
  forall (value : string)
         (yes no caseSensitive blank strip whitelistRegexes blacklistRegexes : PyVal),
    CallResult.

(** [str.upper], the builtin. *)
Variable str_upper : string -> string.

(** Lines 386-395. *)
Definition inputYesNo
    (prompt yes no caseSensitive default blank timeout limit strip whitelistRegexes
     blacklistRegexes applyFunc postValidateApplyFunc : PyVal)
    (stdin : list string) (w : World) : WrapperOutcome * World :=
  let validationFunc :=
    PyFunction (fun value =>
                  validateYesNo value yes no caseSensitive blank strip
                    whitelistRegexes blacklistRegexes) in
  match _genericInput pysv prompt default blank timeout limit strip whitelistRegexes
          blacklistRegexes applyFunc validationFunc postValidateApplyFunc stdin w with
  | (Val (_, result), w') =>
      (* result[0].upper() *)
      match result with
      | EmptyString => (IndexError "string index out of range", w')
      | String c _ => (Result (str_upper (String c "")), w')
      end
  | (Exc e, w') => (Propagated e, w')
  end.

End YesNo.

(** ** Further observations on runs *)

(** An attempt after which the loop goes round again: the line read, the
    candidate made of it, the message of its rejection, and the reading of
    the clock that the bound check logged, if it took one. *)
Record Retry : Type := mkRetry {
  retry_line : string;
  retry_candidate : string;
  retry_message : string;
  retry_clock : list Event
}.

(** What such an attempt adds to the trace, in order: the prompt, the line,
    the call of the transform if there is one, the call of the validation
    function, the reading of the clock, the message. *)
Definition retry_events (cfg : Config) (r : Retry) : list Event :=
  [EvPrint (prompt cfg) ""; EvInput (retry_line r)]
  ++ transform_events cfg (retry_line r)
  ++ [EvValidationFunc (retry_candidate r)]
  ++ retry_clock r
  ++ [EvPrint (retry_message r) newline].

(** The attempt was made by [cfg]: the candidate is that of the line, the
    message is the one the validation function raised on the candidate, and
    the clock was read exactly when a timeout is set. *)
Definition is_retry (cfg : Config) (r : Retry) : Prop :=
  candidate cfg (retry_line r) = Returns (retry_candidate r)
  /\ validationFunc cfg (retry_candidate r) = Raises (retry_message r)
  /\ match timeout cfg with
     | Some _ => exists t, retry_clock r = [EvTime t]
     | None => retry_clock r = []
     end.

Definition is_print (e : Event) : bool :=
  match e with EvPrint _ _ => true | _ => false end.


(** A run that a bound has ended: a signal, or the default at line 163. *)
Definition is_bound_stop (r : Res Returned) : bool :=
  match r with
  | Exc TimeoutException | Exc RetryLimitException | Val (BoundDefault, _) => true
  | _ => false
  end.


(** The two exceptions that report a bad argument. *)
Definition is_configuration_error (e : PyExc) : bool :=
  match e with
  | PyInputPlusException _ | PySimpleValidateException _ => true
  | _ => false
  end.

(** ASCII [str.upper], for sample runs. *)
Fixpoint ascii_upper (s : string) : string :=
  match s with
  | EmptyString => EmptyString
  | String c s' =>
      let n := nat_of_ascii c in
      String (if ((97 <=? n) && (n <=? 122))%nat then ascii_of_nat (n - 32) else c)
        (ascii_upper s')
  end.

(** * Properties *)

Local Open Scope list_scope.

(** ** Basic facts *)

Lemma reads_app (a b : list Event) : reads (a ++ b) = (reads a + reads b)%nat.
Proof. unfold reads. now rewrite filter_app, length_app. Qed.

Lemma post_calls_app (a b : list Event) :
  post_calls (a ++ b) = (post_calls a + post_calls b)%nat.
Proof. unfold post_calls. now rewrite filter_app, length_app. Qed.

Lemma logged_logged (a b : list Event) (w : World) :
  logged b (logged a w) = logged (a ++ b) w.
Proof. unfold logged; simpl. now rewrite app_assoc. Qed.

Lemma trace_after_check timeout w :
  trace (after_check timeout w) = trace w ++ check_events timeout w.
Proof.
  destruct timeout; cbn; [reflexivity | now rewrite app_nil_r].
Qed.

Lemma reads_check_events timeout w : reads (check_events timeout w) = 0%nat.
Proof. destruct timeout; reflexivity. Qed.

Lemma post_calls_check_events timeout w : post_calls (check_events timeout w) = 0%nat.
Proof. destruct timeout; reflexivity. Qed.

Lemma reads_transform_events cfg line : reads (transform_events cfg line) = 0%nat.
Proof. unfold transform_events. destruct (applyFunc cfg); reflexivity. Qed.

Lemma post_calls_transform_events cfg line :
  post_calls (transform_events cfg line) = 0%nat.
Proof. unfold transform_events. destruct (applyFunc cfg); reflexivity. Qed.

Lemma reads_cons e (evs : list Event) :
  reads (e :: evs) = ((if is_input e then 1 else 0) + reads evs)%nat.
Proof. unfold reads. cbn. destruct (is_input e); reflexivity. Qed.

Lemma post_calls_cons e (evs : list Event) :
  post_calls (e :: evs) = ((if is_post e then 1 else 0) + post_calls evs)%nat.
Proof. unfold post_calls. cbn. destruct (is_post e); reflexivity. Qed.

Lemma reads_nil : reads [] = 0%nat.
Proof. reflexivity. Qed.

Lemma post_calls_nil : post_calls [] = 0%nat.
Proof. reflexivity. Qed.

(** Counting the reads and the post-validation calls of a trace that is
    written as a concatenation. *)
Create Rewrite HintDb counts.
#[local] Hint Rewrite trace_after_check reads_app post_calls_app
  reads_cons post_calls_cons reads_nil post_calls_nil
  reads_check_events post_calls_check_events
  reads_transform_events post_calls_transform_events : counts.

Ltac count :=
  repeat (progress (cbn [logged clock_read trace snd]; autorewrite with counts));
  cbn [is_input is_post]; try lia.


Lemma candidate_returns cfg line :
  transform_returns cfg -> exists c, candidate cfg line = Returns c.
Proof.
  unfold transform_returns, candidate. intros H.
  destruct (applyFunc cfg) as [f|]; [apply (H f eq_refl) | eauto].
Qed.

Lemma no_transform_returns cfg : applyFunc cfg = None -> transform_returns cfg.
Proof. intros H f Hf. congruence. Qed.

Lemma reject_all_always_rejects timeout : always_rejects (three_tries timeout).
Proof. intros s. exists "invalid". reflexivity. Qed.

(** ** The bound-check helper *)

(** A timeout whose sum with the start time is below some reading does not
    overflow. *)
Lemma deadline_passed_no_overflow startTime timeout now :
  deadline_passed startTime timeout now = true -> overflows timeout = false.
Proof.
  unfold deadline_passed, overflows, float_add.
  destruct timeout as [[n|x]|]; try reflexivity.
  destruct (float_of_int n); [reflexivity | discriminate].
Qed.

Lemma float_add_overflows startTime T :
  float_add startTime T = None <-> overflows (Some T) = true.
Proof.
  unfold float_add, overflows. destruct T as [n|x].
  - destruct (float_of_int n); split; congruence.
  - split; discriminate.
Qed.

(** The helper, unfolded.  With an [int] timeout beyond the range of [float]
    the sum of line 70 raises [OverflowError] before the clock is read.
    Otherwise: without a timeout the world is left alone; with one the clock
    is read once and compared. *)
Lemma _checkLimitAndTimeout_eq default startTime timeout tries limit w :
  _checkLimitAndTimeout default startTime timeout tries limit w =
  if overflows timeout then (Exc OverflowError, w)
  else
    (Val (if deadline_passed startTime timeout (clock w (ticks w))
          then stop_with default TimeoutException
          else if limit_reached limit tries
          then stop_with default RetryLimitException
          else CheckNone),
     after_check timeout w).
Proof.
  unfold _checkLimitAndTimeout, bind, ret, raise, time_time, limit_reached,
    deadline_passed, overflows, float_add, stop_with, after_check, clock_read.
  destruct timeout as [[n|x]|]; cbn [fst snd].
  - destruct (float_of_int n) as [y|]; [|reflexivity].
    destruct (startTime + y <? clock w (ticks w))%float;
      [|destruct limit as [L|]; [destruct (L <=? tries)%Z|]]; destruct default; reflexivity.
  - destruct (startTime + x <? clock w (ticks w))%float;
      [|destruct limit as [L|]; [destruct (L <=? tries)%Z|]]; destruct default; reflexivity.
  - destruct limit as [L|]; [destruct (L <=? tries)%Z|]; destruct default; reflexivity.
Qed.

(** C2, as the code has it.  In [_checkLimitAndTimeout] the timeout is tested
    before the attempt limit.  With no default, when the test of line 70
    holds, that is when [startTime + timeout], computed in floating point, is
    below the reading of [time.time()], and also [tries >= limit], the helper
    returns the Timeout signal, although on the same state the limit test
    alone would return RetryLimit. *)
Theorem timeout_checked_before_limit
    (startTime deadline : float) (T : Number) (tries L : Z) (w : World) :
  float_add startTime T = Some deadline ->
  (deadline <? clock w (ticks w))%float = true ->
  (L <= tries)%Z ->
  fst (_checkLimitAndTimeout None startTime (Some T) tries (Some L) w)
    = Val (CheckException TimeoutException)
  /\ fst (_checkLimitAndTimeout None startTime None tries (Some L) w)
    = Val (CheckException RetryLimitException).
Proof.
  intros Hsum Hlate Hlimit. rewrite !_checkLimitAndTimeout_eq.
  assert (Hover : overflows (Some T) = false).
  { destruct (overflows (Some T)) eqn:E; [|reflexivity].
    apply float_add_overflows with (startTime := startTime) in E. congruence. }
  rewrite Hover. cbn [overflows fst deadline_passed limit_reached].
  rewrite Hsum, Hlate.
  apply Z.leb_le in Hlimit. rewrite Hlimit. split; reflexivity.
Qed.

Lemma timeout_checked_before_limit_witness :
  fst (_checkLimitAndTimeout None 0 (Some (IntNumber 10)) 3 (Some 3%Z)
         (fresh_world [20]))
    = Val (CheckException TimeoutException)
  /\ fst (_checkLimitAndTimeout None 0 None 3 (Some 3%Z) (fresh_world [20]))
    = Val (CheckException RetryLimitException).
Proof.
  apply (timeout_checked_before_limit 0 10 (IntNumber 10) 3 3 (fresh_world [20])).
  - reflexivity.
  - reflexivity.
  - lia.
Defined.

(** C2, as stated, fails at the rounding of line 70.  A session started at
    1700000000.0 with [timeout=0.2], whose clock reads 1700000000.2 on the
    third rejected attempt of three: the elapsed time exceeds the timeout,
    both between the numbers the three floats stand for and as Python
    computes [time.time() - startTime > timeout]; yet the sum
    [startTime + timeout] rounds to the reading itself, the test of line 70
    fails, and the helper returns RetryLimit. *)
#[warnings="-inexact-float"]
Lemma expired_timeout_reported_as_retry_limit :
  let startTime := 1700000000%float in
  let T := 0.2%float in
  let now := 1700000000.2%float in
  elapsed_exceeds startTime T now = true
  /\ (T <? now - startTime)%float = true
  /\ (startTime + T <? now)%float = false
  /\ fst (_checkLimitAndTimeout None startTime (Some (FloatNumber T)) 3 (Some 3%Z)
            (fresh_world [now]))
     = Val (CheckException RetryLimitException).
Proof. repeat split; vm_compute; reflexivity. Qed.

(** C6, as the code has it.  The helper prints nothing and reads no input,
    and its result is a function of its five arguments together with the
    reading of [time.time()] that it takes itself when [timeout] is set: two
    calls with the same arguments that meet the same reading return the same
    result, and the only change to the world is that one reading (none when
    the sum of line 70 overflows, which raises before the clock is read).
    When [timeout] is [None] the clock is not read, and the result depends
    on [default], [tries] and [limit] alone. *)
Theorem check_determined_by_arguments_and_clock
    (default : option string) (startTime : float) (timeout : option Number)
    (tries : Z) (limit : option Z) (w1 w2 : World) :
  clock w1 (ticks w1) = clock w2 (ticks w2) ->
  fst (_checkLimitAndTimeout default startTime timeout tries limit w1)
    = fst (_checkLimitAndTimeout default startTime timeout tries limit w2)
  /\ snd (_checkLimitAndTimeout default startTime timeout tries limit w1)
    = match timeout with
      | Some _ => if overflows timeout then w1 else clock_read w1
      | None => w1
      end
  /\ (timeout = None ->
      forall startTime' w',
        fst (_checkLimitAndTimeout default startTime' None tries limit w')
          = fst (_checkLimitAndTimeout default startTime timeout tries limit w1)).
Proof.
  intros Hsame. rewrite !_checkLimitAndTimeout_eq.
  split; [|split].
  - destruct (overflows timeout); cbn [fst]; [reflexivity|]. now rewrite Hsame.
  - destruct timeout as [T|]; [|reflexivity].
    destruct (overflows (Some T)); reflexivity.
  - intros -> startTime' w'. now rewrite _checkLimitAndTimeout_eq.
Qed.

Lemma check_determined_by_arguments_and_clock_witness :
  fst (_checkLimitAndTimeout None 0 (Some (IntNumber 10)) 1 None
         (fresh_world [20; 5]))
    = fst (_checkLimitAndTimeout None 0 (Some (IntNumber 10)) 1 None
             (fresh_world [20; 7])).
Proof.
  apply (check_determined_by_arguments_and_clock None 0 (Some (IntNumber 10)) 1 None
           (fresh_world [20; 5]) (fresh_world [20; 7])).
  reflexivity.
Defined.

(** C6, as stated, fails: the helper reads the clock itself.  Two calls with
    identical arguments, one after the other, return different results when
    the clock has moved past the deadline in between. *)
Lemma check_reads_the_clock_itself :
  let call := _checkLimitAndTimeout None 0 (Some (IntNumber 10)) 1 None in
  let w := fresh_world [5; 20] in
  fst (call w) = Val CheckNone
  /\ trace (snd (call w)) = [EvTime 5]
  /\ fst (call (snd (call w))) = Val (CheckException TimeoutException).
Proof. repeat split; reflexivity. Qed.

(** ** One iteration of the loop *)

Lemma loop_nil cfg startTime tries w :
  loop cfg startTime tries [] w = (Exc EOFError, logged [EvPrint (prompt cfg) ""] w).
Proof. reflexivity. Qed.

(** Both sides are the same world once the traces are associated alike. *)
Ltac normalise_worlds :=
  unfold logged; cbn [trace clock ticks app];
  rewrite <- ?app_assoc, ?app_nil_r; cbn [app]; reflexivity.

(** The body of the loop on the next line, with the worlds written out. *)
Lemma loop_cons cfg startTime tries line rest w :
  loop cfg startTime tries (line :: rest) w =
  let w0 := logged [EvPrint (prompt cfg) ""; EvInput line] w in
  match (if (stripped cfg line =? "")%string then default cfg else None) with
  | Some d => (Val (BlankInputDefault, d), w0)
  | None =>
      let w1 := logged (transform_events cfg line) w0 in
      match candidate cfg line with
      | Raises msg => (Exc (RaisedByCallee msg), w1)
      | RaisesBaseException msg => (Exc (BaseExceptionFromCallee msg), w1)
      | Returns c =>
          let w2 := logged [EvValidationFunc c] w1 in
          match validationFunc cfg c with
          | Raises exc =>
              if overflows (timeout cfg) then (Exc OverflowError, w2)
              else
                let w3 := after_check (timeout cfg) w2 in
                if deadline_passed startTime (timeout cfg) (clock w (ticks w))
                then stopped (default cfg) TimeoutException w3
                else if limit_reached (limit cfg) (tries + 1)
                then stopped (default cfg) RetryLimitException w3
                else loop cfg startTime (tries + 1) rest
                       (logged [EvPrint exc newline] w3)
          | RaisesBaseException msg => (Exc (BaseExceptionFromCallee msg), w2)
          | Returns _ =>
              if is_not_None (postValidateApplyFunc cfg) then
                match callable_of (postValidateApplyFunc cfg) with
                | Some f =>
                    match f c with
                    | Returns s =>
                        (Val (PostValidated, s), logged [EvPostValidateApplyFunc c] w2)
                    | Raises msg =>
                        (Exc (RaisedByCallee msg), logged [EvPostValidateApplyFunc c] w2)
                    | RaisesBaseException msg =>
                        (Exc (BaseExceptionFromCallee msg),
                         logged [EvPostValidateApplyFunc c] w2)
                    end
                | None => (Exc (TypeError "object is not callable"), w2)
                end
              else (Val (Validated, c), w2)
          end
      end
  end.
Proof.
  unfold candidate, transform_events, stripped.
  cbn [loop]. unfold print, bind, emit, ret, raise. cbn [trace clock ticks].
  destruct (if (apply_strip (strip cfg) line =? "")%string then default cfg else None);
    [normalise_worlds|].
  destruct (applyFunc cfg) as [f|].
  - destruct (f (apply_strip (strip cfg) line)) as [c|msg|msg]; try normalise_worlds.
    destruct (validationFunc cfg c) as [r|exc|msg]; [| |normalise_worlds].
    + destruct (is_not_None (postValidateApplyFunc cfg)); [|normalise_worlds].
      destruct (callable_of (postValidateApplyFunc cfg)) as [g|]; [|normalise_worlds].
      destruct (g c); normalise_worlds.
    + rewrite _checkLimitAndTimeout_eq. unfold stop_with, stopped. cbn [clock ticks].
      destruct (overflows (timeout cfg)); [normalise_worlds|].
      destruct (deadline_passed _ _ _); [destruct (default cfg); normalise_worlds|].
      destruct (limit_reached _ _); [destruct (default cfg); normalise_worlds|].
      normalise_worlds.
  - destruct (validationFunc cfg (apply_strip (strip cfg) line)) as [r|exc|msg];
      [| |normalise_worlds].
    + destruct (is_not_None (postValidateApplyFunc cfg)); [|normalise_worlds].
      destruct (callable_of (postValidateApplyFunc cfg)) as [g|]; [|normalise_worlds].
      destruct (g _); normalise_worlds.
    + rewrite _checkLimitAndTimeout_eq. unfold stop_with, stopped. cbn [clock ticks].
      destruct (overflows (timeout cfg)); [normalise_worlds|].
      destruct (deadline_passed _ _ _); [destruct (default cfg); normalise_worlds|].
      destruct (limit_reached _ _); [destruct (default cfg); normalise_worlds|].
      normalise_worlds.
Qed.

(** ** Two sessions, step by step *)

(** [limit=3], a rule that accepts "42" only, no default, answers a, b, c:
    two rejections are printed, the third raises RetryLimit. *)
Example three_wrong_answers :
  let cfg := mkConfig "> " None None (Some 3%Z) (PyBool true) None
               (accept_only "42") PyNone in
  let run := session cfg ["a"; "b"; "c"] (fresh_world [0]) in
  fst run = Exc RetryLimitException
  /\ trace (snd run)
     = [EvTime 0;
        EvPrint "> " ""; EvInput "a"; EvValidationFunc "a"; EvPrint "invalid" newline;
        EvPrint "> " ""; EvInput "b"; EvValidationFunc "b"; EvPrint "invalid" newline;
        EvPrint "> " ""; EvInput "c"; EvValidationFunc "c"].
Proof. split; reflexivity. Qed.

(** A right answer after a wrong one, surrounded by blanks that
    [strip=True] removes. *)
Example second_answer_accepted :
  let cfg := mkConfig "> " None (Some (IntNumber 10)) None (PyBool true) None
               (accept_only "42") PyNone in
  let run := session cfg [" x"; " 42 "] (fresh_world [0; 3]) in
  fst run = Val (Validated, "42")
  /\ trace (snd run)
     = [EvTime 0;
        EvPrint "> " ""; EvInput " x"; EvValidationFunc "x"; EvTime 3;
        EvPrint "invalid" newline;
        EvPrint "> " ""; EvInput " 42 "; EvValidationFunc "42"].
Proof. split; reflexivity. Qed.

(** ** Blank input with a default *)

(** C3. With a default set, a line that is empty after stripping makes the
    loop return the default on that very iteration: the iteration prints
    the prompt, reads the line and returns, calling neither the
    pre-validation transform nor the validation function and leaving the
    clock alone.  When it is the first line, the whole session is one read. *)
Theorem blank_input_returns_default
    (cfg : Config) (d : string) (startTime : float) (tries : Z)
    (line : string) (rest : list string) (w : World) :
  default cfg = Some d ->
  stripped cfg line = "" ->
  loop cfg startTime tries (line :: rest) w
    = (Val (BlankInputDefault, d),
       logged [EvPrint (prompt cfg) ""; EvInput line] w)
  /\ session cfg (line :: rest) w
    = (Val (BlankInputDefault, d),
       logged [EvPrint (prompt cfg) ""; EvInput line] (clock_read w))
  /\ reads (trace (snd (session cfg (line :: rest) w))) = S (reads (trace w)).
Proof.
  intros Hd Hblank.
  assert (Hloop : forall st t w0,
             loop cfg st t (line :: rest) w0
             = (Val (BlankInputDefault, d),
                logged [EvPrint (prompt cfg) ""; EvInput line] w0)).
  { intros st t w0. rewrite loop_cons, Hblank, Hd. reflexivity. }
  split; [apply Hloop|].
  assert (Hsession : session cfg (line :: rest) w
             = (Val (BlankInputDefault, d),
                logged [EvPrint (prompt cfg) ""; EvInput line] (clock_read w))).
  { unfold session, bind, time_time. cbn zeta. apply Hloop. }
  split; [exact Hsession|].
  rewrite Hsession. count.
Qed.

Lemma blank_input_returns_default_witness :
  session (mkConfig "> " (Some "9") None None (PyBool true) (Some upper_first)
             reject_all PyNone)
          ["  "; "x"] (fresh_world [0])
  = (Val (BlankInputDefault, "9"),
     logged [EvPrint "> " ""; EvInput "  "] (clock_read (fresh_world [0]))).
Proof.
  apply (blank_input_returns_default
           (mkConfig "> " (Some "9") None None (PyBool true) (Some upper_first)
              reject_all PyNone)
           "9" 0 0 "  " ["x"] (fresh_world [0])); reflexivity.
Defined.

(** ** Sessions whose every attempt is rejected *)

Section Rejections.

Variable cfg : Config.
Variable startTime : float.
Hypothesis no_default : default cfg = None.
Hypothesis rejects : always_rejects cfg.
Hypothesis transforms : transform_returns cfg.
Hypothesis no_overflow : overflows (timeout cfg) = false.

(** One attempt: its candidate is rejected, and the loop raises Timeout,
    raises RetryLimit or goes on. *)
Lemma loop_rejected tries line rest w :
  exists c exc,
    candidate cfg line = Returns c /\
    validationFunc cfg c = Raises exc /\
    loop cfg startTime tries (line :: rest) w =
    let w3 := after_check (timeout cfg)
                (logged ([EvPrint (prompt cfg) ""; EvInput line]
                           ++ transform_events cfg line ++ [EvValidationFunc c]) w) in
    if deadline_passed startTime (timeout cfg) (clock w (ticks w))
    then (Exc TimeoutException, w3)
    else if limit_reached (limit cfg) (tries + 1)
    then (Exc RetryLimitException, w3)
    else loop cfg startTime (tries + 1) rest (logged [EvPrint exc newline] w3).
Proof.
  destruct (candidate_returns cfg line transforms) as [c Hc].
  destruct (rejects c) as [exc Hexc].
  exists c, exc. split; [exact Hc|]. split; [exact Hexc|].
  rewrite loop_cons, no_default, Hc, Hexc, no_overflow. cbn zeta.
  assert (Hnone : (if (stripped cfg line =? "")%string
                   then @None string else None) = None)
    by (destruct (_ =? _)%string; reflexivity).
  rewrite Hnone, !logged_logged. reflexivity.
Qed.

(** The clock as the next attempt finds it. *)
Lemma deadline_after_attempt evs evs' w j :
  deadline_passed startTime (timeout cfg)
    (clock (logged evs' (after_check (timeout cfg) (logged evs w)))
           (ticks (logged evs' (after_check (timeout cfg) (logged evs w))) + j))
  = deadline_passed startTime (timeout cfg) (clock w (ticks w + S j)).
Proof.
  destruct (timeout cfg) as [T|]; [|reflexivity].
  cbn. now rewrite Nat.add_succ_r.
Qed.

(** [n] attempts that are rejected while no bound is reached: the loop is
    then where it was, [n] lines and [n] tries later. *)
Lemma loop_retries (n : nat) :
  forall stdin tries w,
    (n <= length stdin)%nat ->
    (forall j, (j < n)%nat ->
       deadline_passed startTime (timeout cfg) (clock w (ticks w + j)) = false /\
       limit_reached (limit cfg) (tries + 1 + Z.of_nat j) = false) ->
    exists w',
      loop cfg startTime tries stdin w
        = loop cfg startTime (tries + Z.of_nat n) (skipn n stdin) w'
      /\ (forall j,
            deadline_passed startTime (timeout cfg) (clock w' (ticks w' + j))
            = deadline_passed startTime (timeout cfg) (clock w (ticks w + (n + j))))
      /\ reads (trace w') = (reads (trace w) + n)%nat.
Proof.
  induction n as [|n IH]; intros stdin tries w Hlen Hquiet.
  - exists w. rewrite Z.add_0_r, Nat.add_0_r. cbn. auto.
  - destruct stdin as [|line rest]; [cbn in Hlen; lia|].
    destruct (loop_rejected tries line rest w) as (c & exc & Hc & Hexc & Heq).
    destruct (Hquiet 0%nat ltac:(lia)) as [Hdl Hlim].
    rewrite Nat.add_0_r in Hdl. rewrite Z.add_0_r in Hlim.
    rewrite Heq. cbn zeta. rewrite Hdl, Hlim.
    match goal with
    | |- context [loop cfg startTime (tries + 1) rest ?w3] =>
        destruct (IH rest (tries + 1)%Z w3) as (w' & Hrun & Hclock & Hreads)
    end.
    + cbn in Hlen. lia.
    + intros j Hj. destruct (Hquiet (S j) ltac:(lia)) as [Hdl' Hlim'].
      rewrite deadline_after_attempt. split; [exact Hdl'|].
      replace (tries + 1 + 1 + Z.of_nat j)%Z with (tries + 1 + Z.of_nat (S j))%Z by lia.
      exact Hlim'.
    + exists w'. split; [|split].
      * rewrite Hrun. cbn [skipn].
        replace (tries + 1 + Z.of_nat n)%Z with (tries + Z.of_nat (S n))%Z by lia.
        reflexivity.
      * intros j. rewrite Hclock, deadline_after_attempt.
        replace (S (n + j)) with (S n + j)%nat by lia. reflexivity.
      * rewrite Hreads. count.
Qed.

(** The attempt that follows [n] such attempts, when there is a line for
    it. *)
Lemma loop_attempt_after_retries (n : nat) stdin w :
  (n < length stdin)%nat ->
  (forall j, (j < n)%nat ->
     deadline_passed startTime (timeout cfg) (clock w (ticks w + j)) = false /\
     limit_reached (limit cfg) (1 + Z.of_nat j) = false) ->
  exists w3,
    reads (trace w3) = (reads (trace w) + S n)%nat /\
    ((deadline_passed startTime (timeout cfg) (clock w (ticks w + n)) = true /\
      loop cfg startTime 0 stdin w = (Exc TimeoutException, w3))
     \/
     (deadline_passed startTime (timeout cfg) (clock w (ticks w + n)) = false /\
      limit_reached (limit cfg) (Z.of_nat (S n)) = true /\
      loop cfg startTime 0 stdin w = (Exc RetryLimitException, w3))
     \/
     (deadline_passed startTime (timeout cfg) (clock w (ticks w + n)) = false /\
      limit_reached (limit cfg) (Z.of_nat (S n)) = false)).
Proof.
  intros Hlen Hquiet.
  destruct (loop_retries n stdin 0 w ltac:(lia)) as (w' & Hrun & Hclock & Hreads).
  { intros j Hj. destruct (Hquiet j Hj) as [Hdl Hlim]. split; [exact Hdl|].
    replace (0 + 1 + Z.of_nat j)%Z with (1 + Z.of_nat j)%Z by lia. exact Hlim. }
  destruct (skipn n stdin) as [|line rest] eqn:Hskip.
  { apply (f_equal (@length string)) in Hskip.
    rewrite length_skipn in Hskip. cbn in Hskip. lia. }
  destruct (loop_rejected (0 + Z.of_nat n) line rest w') as (c & exc & Hc & Hexc & Heq).
  rewrite Hrun, Heq. cbn zeta.
  specialize (Hclock 0%nat). rewrite !Nat.add_0_r in Hclock. rewrite Hclock.
  replace (0 + Z.of_nat n + 1)%Z with (Z.of_nat (S n)) by lia.
  exists (after_check (timeout cfg)
            (logged ([EvPrint (prompt cfg) ""; EvInput line]
                       ++ transform_events cfg line ++ [EvValidationFunc c]) w')).
  split; [count; rewrite Hreads; lia|].
  destruct (deadline_passed startTime (timeout cfg) (clock w (ticks w + n)));
    [left; split; reflexivity|].
  destruct (limit_reached (limit cfg) (Z.of_nat (S n)));
    [right; left; repeat split; reflexivity | right; right; split; reflexivity].
Qed.

End Rejections.

(** ** The attempt limit *)

(** C1, as the code has it.  With [limit = N], [N >= 1], no default, a
    validation that rejects every candidate and a pre-validation transform
    that returns, on a session in which the timeout test of line 70 can be
    computed (the timeout is no [int] beyond the range of [float]) and fails
    on each of the first [N] attempts (in particular when no timeout is
    set), and for which at least [N] lines can be read: the loop reads
    exactly [N] lines and then raises RetryLimit. *)
Theorem retry_limit_after_exactly_N_reads
    (cfg : Config) (N : nat) (stdin : list string) (w : World) :
  limit cfg = Some (Z.of_nat N) ->
  (1 <= N)%nat ->
  default cfg = None ->
  always_rejects cfg ->
  transform_returns cfg ->
  overflows (timeout cfg) = false ->
  (forall k, (1 <= k <= N)%nat ->
     deadline_passed (clock w (ticks w)) (timeout cfg) (clock w (ticks w + k)) = false) ->
  (N <= length stdin)%nat ->
  fst (session cfg stdin w) = Exc RetryLimitException
  /\ reads (trace (snd (session cfg stdin w))) = (reads (trace w) + N)%nat.
Proof.
  intros Hlimit HN Hd Hrej Htr Hover Hdl Hlen.
  set (startTime := clock w (ticks w)) in *.
  change (session cfg stdin w) with (loop cfg startTime 0 stdin (clock_read w)).
  destruct (loop_attempt_after_retries cfg startTime Hd Hrej Htr Hover (N - 1) stdin
              (clock_read w)) as (w3 & Hreads & Hcase).
  - lia.
  - intros j Hj. cbn [clock_read clock ticks]. split.
    + replace (S (ticks w) + j)%nat with (ticks w + S j)%nat by lia.
      apply Hdl. lia.
    + rewrite Hlimit. unfold limit_reached. apply Z.leb_gt. lia.
  - cbn [clock_read clock ticks] in Hcase.
    replace (S (ticks w) + (N - 1))%nat with (ticks w + N)%nat in Hcase by lia.
    rewrite Hdl in Hcase by lia.
    replace (S (N - 1)) with N in * by lia.
    destruct Hcase as [[Hlate _] | [(_ & _ & Hrun) | [_ Hmore]]].
    + discriminate.
    + rewrite Hrun. cbn [fst snd]. split; [reflexivity|].
      rewrite Hreads. count.
    + rewrite Hlimit in Hmore. unfold limit_reached in Hmore.
      apply Z.leb_gt in Hmore. lia.
Qed.

Lemma retry_limit_after_exactly_N_reads_witness :
  fst (session (three_tries (Some (IntNumber 100))) ["a"; "b"; "c"; "d"]
         (fresh_world [0; 1; 2; 3]))
    = Exc RetryLimitException
  /\ reads (trace (snd (session (three_tries (Some (IntNumber 100))) ["a"; "b"; "c"; "d"]
                          (fresh_world [0; 1; 2; 3]))))
     = Nat.add (reads (trace (fresh_world [0; 1; 2; 3]))) 3.
Proof.
  apply (retry_limit_after_exactly_N_reads (three_tries (Some (IntNumber 100))) 3
           ["a"; "b"; "c"; "d"] (fresh_world [0; 1; 2; 3])).
  - reflexivity.
  - lia.
  - reflexivity.
  - apply reject_all_always_rejects.
  - apply no_transform_returns. reflexivity.
  - reflexivity.
  - intros k Hk.
    destruct k as [|[|[|[|k]]]]; try lia; reflexivity.
  - cbn. lia.
Defined.

(** C1, as stated, fails: the timeout is part of the configuration and is
    tested first.  With [limit = 3], [timeout = 1], no default and a
    validation that rejects everything, a first answer that comes after 5
    seconds raises Timeout after one read; RetryLimit is never raised. *)
Lemma timeout_preempts_retry_limit :
  let cfg := three_tries (Some (IntNumber 1)) in
  let run := session cfg ["a"; "b"; "c"; "d"] (fresh_world [0; 5; 6; 7]) in
  limit cfg = Some 3%Z
  /\ default cfg = None
  /\ always_rejects cfg
  /\ fst run = Exc TimeoutException
  /\ reads (trace (snd run)) = 1%nat.
Proof.
  cbn zeta. repeat split; try reflexivity. apply reject_all_always_rejects.
Qed.

(** ** The timeout *)

(** A run that ends in Timeout ends right after a line was read and its
    candidate rejected, on a reading of the clock past the deadline. *)
Lemma timeout_only_after_rejection cfg startTime :
  forall stdin tries w,
    fst (loop cfg startTime tries stdin w) = Exc TimeoutException ->
    exists T pre line c exc t,
      timeout cfg = Some T /\ default cfg = None /\
      trace (snd (loop cfg startTime tries stdin w))
        = trace w ++ pre ++ [EvPrint (prompt cfg) ""; EvInput line]
            ++ transform_events cfg line ++ [EvValidationFunc c; EvTime t] /\
      candidate cfg line = Returns c /\
      validationFunc cfg c = Raises exc /\
      deadline_passed startTime (Some T) t = true.
Proof.
  induction stdin as [|line rest IH]; intros tries w.
  - rewrite loop_nil. discriminate.
  - rewrite loop_cons. cbn zeta.
    destruct (if (stripped cfg line =? "")%string then default cfg else None);
      [discriminate|].
    destruct (candidate cfg line) as [c|msg|msg] eqn:Hc; try discriminate.
    destruct (validationFunc cfg c) as [r|exc|msg] eqn:Hv; [| |discriminate].
    { destruct (is_not_None _); [|discriminate].
      destruct (callable_of _) as [g|]; [|discriminate].
      destruct (g c); discriminate. }
    destruct (overflows (timeout cfg)) eqn:Hover; [discriminate|].
    unfold stopped.
    destruct (deadline_passed startTime (timeout cfg) (clock w (ticks w))) eqn:Hdl.
    + destruct (default cfg) eqn:Hd; [discriminate|]. intros _.
      destruct (timeout cfg) as [T|] eqn:HT; [|discriminate].
      exists T, [], line, c, exc, (clock w (ticks w)).
      repeat split; try assumption.
      cbn. rewrite <- !app_assoc. reflexivity.
    + destruct (limit_reached _ _); [destruct (default cfg); discriminate|].
      intros Hrun.
      destruct (IH _ _ Hrun) as (T & pre & line' & c' & exc' & t & HT & Hd & Htr & H).
      exists T,
        ([EvPrint (prompt cfg) ""; EvInput line] ++ transform_events cfg line
           ++ [EvValidationFunc c; EvTime (clock w (ticks w)); EvPrint exc newline]
           ++ pre),
        line', c', exc', t.
      repeat split; try tauto.
      rewrite Htr, HT. cbn. rewrite <- ?app_assoc. cbn.
      rewrite <- ?app_assoc. reflexivity.
Qed.

(** C5, as the code has it.  With [timeout = T]:
    - in a session without default whose validation rejects everything,
      the first attempt on which the test of line 70 holds, that is on
      which [startTime + T], computed in floating point, is below the
      reading of the clock, raises Timeout after exactly that many reads,
      whatever the limit says of that attempt (on the earlier attempts the
      test failed and the limit was not reached, so the loop got there);
    - a Timeout is only ever raised right after a line has been read and
      its candidate rejected, on a reading of the clock for which that test
      holds;
    - an attempt whose candidate is accepted ends the loop without reading
      the clock, however late it is;
    - while no line can be read, nothing is raised but the end of input and
      the clock is not read. *)
Theorem timeout_raised_on_first_late_attempt (cfg : Config) (T : Number) :
  timeout cfg = Some T ->
  (forall (k : nat) (stdin : list string) (w : World),
     default cfg = None -> always_rejects cfg -> transform_returns cfg ->
     (1 <= k <= length stdin)%nat ->
     (forall j, (1 <= j < k)%nat ->
        deadline_passed (clock w (ticks w)) (Some T) (clock w (ticks w + j)) = false
        /\ limit_reached (limit cfg) (Z.of_nat j) = false) ->
     deadline_passed (clock w (ticks w)) (Some T) (clock w (ticks w + k)) = true ->
     fst (session cfg stdin w) = Exc TimeoutException
     /\ reads (trace (snd (session cfg stdin w))) = (reads (trace w) + k)%nat)
  /\ (forall startTime tries stdin w,
        fst (loop cfg startTime tries stdin w) = Exc TimeoutException ->
        exists pre line c exc t,
          trace (snd (loop cfg startTime tries stdin w))
            = trace w ++ pre ++ [EvPrint (prompt cfg) ""; EvInput line]
                ++ transform_events cfg line ++ [EvValidationFunc c; EvTime t]
          /\ candidate cfg line = Returns c
          /\ validationFunc cfg c = Raises exc
          /\ deadline_passed startTime (Some T) t = true)
  /\ (forall startTime tries line rest w c r,
        candidate cfg line = Returns c ->
        validationFunc cfg c = Returns r ->
        ticks (snd (loop cfg startTime tries (line :: rest) w)) = ticks w
        /\ fst (loop cfg startTime tries (line :: rest) w) <> Exc TimeoutException)
  /\ (forall startTime tries w,
        loop cfg startTime tries [] w
        = (Exc EOFError, logged [EvPrint (prompt cfg) ""] w)).
Proof.
  intros HT. split; [|split; [|split]].
  - intros k stdin w Hd Hrej Htr Hk Hbefore Hlate.
    set (startTime := clock w (ticks w)) in *.
    change (session cfg stdin w) with (loop cfg startTime 0 stdin (clock_read w)).
    assert (Hover : overflows (timeout cfg) = false).
    { rewrite HT. exact (deadline_passed_no_overflow _ _ _ Hlate). }
    destruct (loop_attempt_after_retries cfg startTime Hd Hrej Htr Hover (k - 1) stdin
                (clock_read w)) as (w3 & Hreads & Hcase).
    + lia.
    + intros j Hj. destruct (Hbefore (S j) ltac:(lia)) as [Hin Hlim].
      cbn [clock_read clock ticks]. split.
      * rewrite HT.
        replace (S (ticks w) + j)%nat with (ticks w + S j)%nat by lia.
        exact Hin.
      * replace (1 + Z.of_nat j)%Z with (Z.of_nat (S j)) by lia. exact Hlim.
    + cbn [clock_read clock ticks] in Hcase.
      replace (S (ticks w) + (k - 1))%nat with (ticks w + k)%nat in Hcase by lia.
      rewrite HT, Hlate in Hcase.
      destruct Hcase as [[_ Hrun] | [(Hno & _) | [Hno _]]]; try discriminate.
      rewrite Hrun. cbn [fst snd]. split; [reflexivity|].
      rewrite Hreads. count.
  - intros startTime tries stdin w Hrun.
    destruct (timeout_only_after_rejection cfg startTime stdin tries w Hrun)
      as (T' & pre & line & c & exc & t & HT' & _ & Htr & Hc & Hv & Hlate).
    assert (T' = T) by congruence. subst T'.
    exists pre, line, c, exc, t. auto.
  - intros startTime tries line rest w c r Hc Hv.
    rewrite loop_cons, Hc, Hv. cbn zeta.
    destruct (if (stripped cfg line =? "")%string then default cfg else None);
      [split; [reflexivity | discriminate]|].
    destruct (is_not_None _); [|split; [reflexivity | discriminate]].
    destruct (callable_of _) as [g|]; [|split; [reflexivity | discriminate]].
    destruct (g c); split; (reflexivity || discriminate).
  - intros. apply loop_nil.
Qed.

Lemma timeout_raised_on_first_late_attempt_witness :
  fst (session (three_tries (Some (IntNumber 10))) ["a"; "b"; "c"; "d"]
         (fresh_world [0; 5; 8; 20]))
    = Exc TimeoutException
  /\ reads (trace (snd (session (three_tries (Some (IntNumber 10))) ["a"; "b"; "c"; "d"]
                          (fresh_world [0; 5; 8; 20]))))
     = Nat.add (reads (trace (fresh_world [0; 5; 8; 20]))) 3.
Proof.
  apply (proj1 (timeout_raised_on_first_late_attempt (three_tries (Some (IntNumber 10)))
                  (IntNumber 10) eq_refl)
           3%nat ["a"; "b"; "c"; "d"] (fresh_world [0; 5; 8; 20])).
  - reflexivity.
  - apply reject_all_always_rejects.
  - apply no_transform_returns. reflexivity.
  - cbn. lia.
  - intros j Hj. destruct j as [|[|[|j]]]; try lia; split; reflexivity.
  - reflexivity.
Defined.

(** C5, as stated, fails at the rounding of line 70.  A session started at
    1700000000.0 with [timeout=0.2], no default, no limit and a validation
    that rejects everything, whose first answer is checked when the clock
    reads 1700000000.2: the elapsed time exceeds the timeout, both between
    the numbers the floats stand for and as Python computes
    [time.time() - startTime > timeout]; yet [startTime + timeout] rounds to
    the reading itself, the first failed attempt raises nothing, its message
    is printed and the user is prompted again.  Timeout comes one attempt
    later. *)
#[warnings="-inexact-float"]
Lemma late_attempt_retried_at_rounding_boundary :
  let startTime := 1700000000 in
  let T := 0.2 in
  let now := 1700000000.2 in
  let cfg := mkConfig "> " None (Some (FloatNumber T)) None (PyBool true) None
               reject_all PyNone in
  let run := session cfg ["a"; "b"] (fresh_world [startTime; now; 1700000001]) in
  always_rejects cfg
  /\ elapsed_exceeds startTime T now = true
  /\ (T <? now - startTime)%float = true
  /\ fst run = Exc TimeoutException
  /\ trace (snd run)
     = [EvTime startTime;
        EvPrint "> " ""; EvInput "a"; EvValidationFunc "a"; EvTime now;
        EvPrint "invalid" newline;
        EvPrint "> " ""; EvInput "b"; EvValidationFunc "b"; EvTime 1700000001].
Proof.
  cbn zeta. split; [intros s; exists "invalid"; reflexivity|].
  repeat split; vm_compute; reflexivity.
Qed.

(** ** The default *)





(** ** The post-validation transform *)



(** ** The returned default *)

(** A run that returns at one of the two [return default] sites returns the
    configured default, and shows no call of the post-validation
    transform. *)
Lemma default_site_returns_default cfg startTime :
  forall stdin tries w site v,
    fst (loop cfg startTime tries stdin w) = Val (site, v) ->
    is_default_site site = true ->
    default cfg = Some v
    /\ exists evs,
         trace (snd (loop cfg startTime tries stdin w)) = trace w ++ evs
         /\ post_calls evs = 0%nat.
Proof.
  induction stdin as [|line rest IH]; intros tries w site v.
  - rewrite loop_nil. discriminate.
  - rewrite loop_cons. cbn zeta.
    destruct (if (stripped cfg line =? "")%string then default cfg else None)
      as [d0|] eqn:Hblank.
    { intros [= <- <-] _. split.
      - destruct (_ =? _)%string; [exact Hblank | discriminate].
      - eexists. split; reflexivity. }
    destruct (candidate cfg line) as [c|msg|msg]; [|discriminate..].
    destruct (validationFunc cfg c) as [r|exc|msg]; [| |discriminate].
    { destruct (is_not_None _).
      - destruct (callable_of _) as [g|]; [|discriminate].
        destruct (g c); [|discriminate..]. intros [= <- _]. discriminate.
      - intros [= <- _]. discriminate. }
    destruct (overflows (timeout cfg)); [discriminate|].
    set (w3 := after_check _ _).
    set (it := [EvPrint (prompt cfg) ""; EvInput line] ++ transform_events cfg line
                 ++ [EvValidationFunc c] ++ check_events (timeout cfg) w).
    assert (Hit : trace w3 = trace w ++ it).
    { subst w3 it. rewrite trace_after_check. cbn. rewrite <- !app_assoc. reflexivity. }
    assert (Hcalls : post_calls it = 0%nat) by (subst it; count).
    assert (Hstop : forall e,
               fst (stopped (default cfg) e w3) = Val (site, v) ->
               default cfg = Some v
               /\ exists evs,
                    trace (snd (stopped (default cfg) e w3)) = trace w ++ evs
                    /\ post_calls evs = 0%nat).
    { intros e. unfold stopped. destruct (default cfg) as [d0|]; cbn [fst snd];
        [|discriminate].
      intros [= _ <-]. split; [reflexivity|]. exists it. split; assumption. }
    destruct (deadline_passed _ _ _); [intros H _; exact (Hstop _ H)|].
    destruct (limit_reached _ _); [intros H _; exact (Hstop _ H)|].
    intros Hrun Hsite.
    destruct (IH _ _ _ _ Hrun Hsite) as (Hd & evs & Htr & H0).
    split; [exact Hd|].
    exists ((it ++ [EvPrint exc newline]) ++ evs). split.
    + rewrite Htr. cbn [logged trace]. rewrite Hit, <- !app_assoc. reflexivity.
    + rewrite !post_calls_app, Hcalls, H0. reflexivity.
Qed.

(** Another default changes the value returned at the [return default]
    sites and nothing else: not the world, and so not the calls made. *)
Lemma loop_with_default cfg d d' startTime :
  default cfg = Some d ->
  forall stdin tries w,
    loop (with_default (Some d') cfg) startTime tries stdin w
    = (with_returned_default d' (fst (loop cfg startTime tries stdin w)),
       snd (loop cfg startTime tries stdin w)).
Proof.
  intros Hd. induction stdin as [|line rest IH]; intros tries w.
  - reflexivity.
  - rewrite !loop_cons. cbn zeta.
    change (stripped (with_default (Some d') cfg) line) with (stripped cfg line).
    change (candidate (with_default (Some d') cfg) line) with (candidate cfg line).
    change (transform_events (with_default (Some d') cfg) line)
      with (transform_events cfg line).
    cbn [with_default default prompt timeout limit validationFunc
           postValidateApplyFunc].
    rewrite Hd.
    destruct (stripped cfg line =? "")%string; [reflexivity|].
    destruct (candidate cfg line) as [c|msg|msg]; [|reflexivity..].
    destruct (validationFunc cfg c) as [r|exc|msg]; [| |reflexivity].
    + destruct (is_not_None _); [|reflexivity].
      destruct (callable_of _) as [g|]; [|reflexivity].
      destruct (g c); reflexivity.
    + destruct (overflows (timeout cfg)); [reflexivity|].
      cbn [stopped].
      destruct (deadline_passed _ _ _); [reflexivity|].
      destruct (limit_reached _ _); [reflexivity|].
      apply IH.
Qed.

(** C10. When the loop returns at a [return default] site (blank input, or a
    bound reached), the value is the configured default itself, whatever
    the two transforms are; the run shows no call of the post-validation
    transform; and the default reaches no caller-supplied function: with
    any other default the run makes the same calls on the same arguments,
    reads the same lines and the same clock, and returns that other default
    instead. *)
Theorem returned_default_is_untouched (cfg : Config) (d : string) :
  default cfg = Some d ->
  forall startTime stdin tries w site v,
    fst (loop cfg startTime tries stdin w) = Val (site, v) ->
    is_default_site site = true ->
    v = d
    /\ (exists evs,
          trace (snd (loop cfg startTime tries stdin w)) = trace w ++ evs
          /\ post_calls evs = 0%nat)
    /\ (forall d',
          loop (with_default (Some d') cfg) startTime tries stdin w
          = (Val (site, d'), snd (loop cfg startTime tries stdin w))).
Proof.
  intros Hd startTime stdin tries w site v Hrun Hsite.
  destruct (default_site_returns_default cfg startTime stdin tries w site v Hrun Hsite)
    as (Hv & Hevs).
  split; [congruence|]. split; [exact Hevs|].
  intros d'. rewrite (loop_with_default cfg d d' startTime Hd), Hrun.
  destruct site; try discriminate; reflexivity.
Qed.

Lemma returned_default_is_untouched_witness :
  "9" = "9"
  /\ (exists evs,
        trace (snd (loop (mkConfig "> " (Some "9") None (Some 2%Z) (PyBool true)
                            (Some upper_first) reject_all (PyFunction upper_first))
                      0 0 ["a"; "b"; "c"] (fresh_world [])))
          = trace (fresh_world []) ++ evs
        /\ post_calls evs = 0%nat)
  /\ (forall d',
        loop (with_default (Some d')
                (mkConfig "> " (Some "9") None (Some 2%Z) (PyBool true)
                   (Some upper_first) reject_all (PyFunction upper_first)))
          0 0 ["a"; "b"; "c"] (fresh_world [])
        = (Val (BoundDefault, d'),
           snd (loop (mkConfig "> " (Some "9") None (Some 2%Z) (PyBool true)
                        (Some upper_first) reject_all (PyFunction upper_first))
                  0 0 ["a"; "b"; "c"] (fresh_world [])))).
Proof.
  apply (returned_default_is_untouched
           (mkConfig "> " (Some "9") None (Some 2%Z) (PyBool true)
              (Some upper_first) reject_all (PyFunction upper_first))
           "9" eq_refl 0 ["a"; "b"; "c"] 0%Z (fresh_world []) BoundDefault "9");
    reflexivity.
Defined.

(** ** The argument checks of _genericInput *)

(** An argument among [prompt], [default], [timeout], [limit], [strip],
    [validationFunc] and [applyFunc] of the wrong type makes [_genericInput]
    raise before it prints, reads or takes the time. *)
Lemma _genericInput_rejects_checked_arguments
    pysv prompt default blank timeout limit strip whitelistRegexes blacklistRegexes
    applyFunc validationFunc postValidateApplyFunc stdin w :
  checked_arguments_ok prompt default timeout limit strip applyFunc validationFunc
    = false ->
  exists e,
    _genericInput pysv prompt default blank timeout limit strip whitelistRegexes
      blacklistRegexes applyFunc validationFunc postValidateApplyFunc stdin w
    = (Exc e, w).
Proof.
  unfold checked_arguments_ok, _genericInput, raising, bind. intros H.
  destruct (_validateGenericParameters _ _ _ _ _); [eexists; reflexivity|].
  cbn [ret].
  repeat match goal with
         | |- context [raise_unless ?b _] =>
             destruct b; cbn [raise_unless ret raise andb] in *;
             [|eexists; reflexivity]
         end.
  discriminate.
Qed.

(** When the checks pass, [_genericInput] is the session of the
    configuration its arguments describe. *)
Lemma _genericInput_session
    pysv prompt default blank timeout limit strip whitelistRegexes blacklistRegexes
    applyFunc validationFunc postValidateApplyFunc stdin w :
  _validateGenericParameters pysv blank strip whitelistRegexes blacklistRegexes = None ->
  checked_arguments_ok prompt default timeout limit strip applyFunc validationFunc
    = true ->
  _genericInput pysv prompt default blank timeout limit strip whitelistRegexes
    blacklistRegexes applyFunc validationFunc postValidateApplyFunc stdin w
  = session {| prompt := str_of prompt;
               default := optional_str_of default;
               timeout := optional_number_of timeout;
               limit := optional_int_of limit;
               strip := strip;
               applyFunc := callable_of applyFunc;
               validationFunc := function_of validationFunc;
               postValidateApplyFunc := postValidateApplyFunc |}
            stdin w.
Proof.
  unfold checked_arguments_ok, _genericInput, raising, bind. intros -> H.
  cbn [ret].
  repeat match goal with
         | |- context [raise_unless ?b _] =>
             destruct b; cbn [raise_unless ret raise andb] in *;
             [|discriminate]
         end.
  reflexivity.
Qed.

(** C8, at the failing input.  [postValidateApplyFunc] is not among the
    checked arguments: with the integer 5 for it and otherwise well-typed
    arguments, [_genericInput] raises no configuration error.  It takes the
    time, prints the prompt, reads a line, validates it, and only then
    fails, with the [TypeError] of calling an [int]. *)
Theorem postValidateApplyFunc_not_checked
    (pysv : PySimpleValidate) (line : string) (rest : list string) (w : World) :
  _validateGenericParameters pysv (PyBool false) (PyBool true) PyNone PyNone = None ->
  _genericInput pysv (PyStr "> ") PyNone (PyBool false) PyNone PyNone (PyBool true)
    PyNone PyNone PyNone (PyFunction accept_all) (PyInt 5) (line :: rest) w
  = (Exc (TypeError "object is not callable"),
     logged [EvPrint "> " ""; EvInput line;
             EvValidationFunc (str_strip is_whitespace line)]
       (clock_read w)).
Proof.
  intros Hok. rewrite _genericInput_session by (assumption || reflexivity).
  unfold session, bind, time_time. cbn zeta. rewrite loop_cons.
  cbn. destruct (str_strip is_whitespace line =? "")%string;
    rewrite !logged_logged; reflexivity.
Qed.

Lemma postValidateApplyFunc_not_checked_witness :
  _genericInput reporting_pysv (PyStr "> ") PyNone (PyBool false) PyNone PyNone
    (PyBool true) PyNone PyNone PyNone (PyFunction accept_all) (PyInt 5)
    (" x " :: []) (fresh_world [0])
  = (Exc (TypeError "object is not callable"),
     logged [EvPrint "> " ""; EvInput " x ";
             EvValidationFunc (str_strip is_whitespace " x ")]
       (clock_read (fresh_world [0]))).
Proof.
  apply (postValidateApplyFunc_not_checked reporting_pysv " x " [] (fresh_world [0])).
  reflexivity.
Defined.

(** ** The validation rules that the wrappers bind *)

(** C7, at the failing inputs.  The validation function that [inputRegex]
    builds calls [validateRegex] with [regex=''] and [flags=0] whatever
    [regex] and [flags] the caller gave, so that [inputRegex] behaves the
    same for every [regex] and [flags]; the validation functions that
    [inputChoice] and [inputMenu] build call [validateChoice] with
    [numbered=False], [lettered=False] and [caseSensitive=False] whatever
    the caller gave.  With validators that report the parameters they
    receive, [inputRegex(regex='[0-9]+', flags=2)] and
    [inputChoice] and [inputMenu] with [numbered=True, caseSensitive=True]
    print the constants, not the caller's values. *)
Theorem wrappers_drop_domain_parameters :
  (forall pysv regex flags regex' flags' prompt default blank timeout limit strip
          whitelistRegexes blacklistRegexes applyFunc postValidateApplyFunc stdin w,
     inputRegex pysv regex flags prompt default blank timeout limit strip
       whitelistRegexes blacklistRegexes applyFunc postValidateApplyFunc stdin w
     = inputRegex pysv regex' flags' prompt default blank timeout limit strip
         whitelistRegexes blacklistRegexes applyFunc postValidateApplyFunc stdin w)
  /\ (forall pysv choices blank strip whitelistRegexes blacklistRegexes
             numbered lettered caseSensitive value,
        inputChoice_validationFunc pysv choices blank strip whitelistRegexes
          blacklistRegexes numbered lettered caseSensitive value
        = validateChoice pysv value (py_choices choices) blank strip
            whitelistRegexes blacklistRegexes
            (PyBool false) (PyBool false) (PyBool false))
  /\ (forall pysv choices blank strip whitelistRegexes blacklistRegexes
             numbered lettered caseSensitive value,
        inputMenu_validationFunc pysv choices blank strip whitelistRegexes
          blacklistRegexes numbered lettered caseSensitive value
        = validateChoice pysv value (py_choices choices) blank strip
            whitelistRegexes blacklistRegexes
            (PyBool false) (PyBool false) (PyBool false))
  /\ trace (snd (inputRegex reporting_pysv (PyStr "[0-9]+") (PyInt 2) (PyStr "> ")
                   PyNone (PyBool false) PyNone (PyInt 2) (PyBool true) PyNone PyNone
                   PyNone PyNone ["abc"; "def"] (fresh_world [0])))
     = [EvTime 0; EvPrint "> " ""; EvInput "abc"; EvValidationFunc "abc";
        EvPrint "regex='' flags=0" newline;
        EvPrint "> " ""; EvInput "def"; EvValidationFunc "def"]
  /\ trace (snd (inputChoice reporting_pysv ["Cat"; "Dog"] (PyStr "? ")
                   PyNone (PyBool false) PyNone (PyInt 2) (PyBool true) PyNone PyNone
                   PyNone PyNone (PyBool true) (PyBool false) (PyBool true)
                   ["cat"; "1"] (fresh_world [0])))
     = [EvTime 0; EvPrint "? " ""; EvInput "cat"; EvValidationFunc "cat";
        EvPrint "numbered=False lettered=False caseSensitive=False" newline;
        EvPrint "? " ""; EvInput "1"; EvValidationFunc "1"]
  /\ trace (snd (inputMenu reporting_pysv ["Cat"; "Dog"] (PyStr "? ")
                   PyNone (PyBool false) PyNone (PyInt 2) (PyBool true) PyNone PyNone
                   PyNone PyNone (PyBool true) (PyBool false) (PyBool true)
                   ["cat"; "1"] (fresh_world [0])))
     = [EvTime 0; EvPrint "? " ""; EvInput "cat"; EvValidationFunc "cat";
        EvPrint "numbered=False lettered=False caseSensitive=False" newline;
        EvPrint "? " ""; EvInput "1"; EvValidationFunc "1"].
Proof.
  repeat split; reflexivity.
Qed.

(** * Further properties of the loop *)

(** Two writings of one trace. *)
Ltac trace_eq :=
  cbn [fst snd logged trace];
  rewrite ?trace_after_check;
  cbn [logged trace clock ticks];
  rewrite <- ?app_assoc; cbn [app];
  reflexivity.

(** ** How many lines a limit lets the loop read *)

(** X1. With [limit = L], a run that starts after [tries] attempts reads at
    most [max(1, L - tries)] more lines, whatever the validation function,
    the transforms, the default and the timeout do; a session reads at most
    [max(1, L)] lines.  A limit of zero or below acts like a limit of one. *)
Theorem reads_bounded_by_limit (cfg : Config) (L : Z) :
  limit cfg = Some L ->
  (forall startTime stdin tries w,
     (reads (trace (snd (loop cfg startTime tries stdin w)))
      <= reads (trace w) + Z.to_nat (Z.max 1 (L - tries)))%nat)
  /\ (forall stdin w,
        (reads (trace (snd (session cfg stdin w)))
         <= reads (trace w) + Z.to_nat (Z.max 1 L))%nat).
Proof.
  intros HL.
  assert (Hloop : forall startTime stdin tries w,
             (reads (trace (snd (loop cfg startTime tries stdin w)))
              <= reads (trace w) + Z.to_nat (Z.max 1 (L - tries)))%nat).
  { intros startTime. induction stdin as [|line rest IH]; intros tries w.
    - rewrite loop_nil. count.
    - rewrite loop_cons. cbn zeta.
      destruct (if (stripped cfg line =? "")%string then default cfg else None);
        [count|].
      destruct (candidate cfg line) as [c|msg|msg]; [|count..].
      destruct (validationFunc cfg c) as [r|exc|msg]; [| |count].
      { destruct (is_not_None _); [|count].
        destruct (callable_of _) as [g|]; [|count].
        destruct (g c); count. }
      destruct (overflows (timeout cfg)); [count|].
      unfold stopped.
      destruct (deadline_passed _ _ _); [destruct (default cfg); count|].
      rewrite HL. unfold limit_reached.
      destruct (L <=? tries + 1)%Z eqn:Hlim; [destruct (default cfg); count|].
      apply Z.leb_gt in Hlim.
      eapply Nat.le_trans; [apply IH|]. count. }
  split; [exact Hloop|].
  intros stdin w.
  change (session cfg stdin w) with (loop cfg (clock w (ticks w)) 0 stdin (clock_read w)).
  eapply Nat.le_trans; [apply Hloop|]. rewrite Z.sub_0_r. count.
Qed.

Lemma reads_bounded_by_limit_witness :
  Nat.le (reads (trace (snd (session (three_tries None) ["a"; "b"; "c"; "d"; "e"]
                               (fresh_world [0])))))
         (Nat.add (reads (trace (fresh_world [0]))) (Z.to_nat (Z.max 1 3))).
Proof.
  apply (proj2 (reads_bounded_by_limit (three_tries None) 3 eq_refl)).
Defined.

(** X2. RetryLimit is raised neither early nor late: a run that ends with
    it had a limit [L] and no default, and read exactly [max(1, L - tries)]
    lines since it started at [tries] attempts, whatever else the
    configuration holds. *)
Theorem retry_limit_means_limit_reads (cfg : Config) (startTime : float) :
  forall stdin tries w,
    fst (loop cfg startTime tries stdin w) = Exc RetryLimitException ->
    exists L,
      limit cfg = Some L /\ default cfg = None /\
      reads (trace (snd (loop cfg startTime tries stdin w)))
      = (reads (trace w) + Z.to_nat (Z.max 1 (L - tries)))%nat.
Proof.
  induction stdin as [|line rest IH]; intros tries w.
  - rewrite loop_nil. discriminate.
  - rewrite loop_cons. cbn zeta.
    destruct (if (stripped cfg line =? "")%string then default cfg else None);
      [discriminate|].
    destruct (candidate cfg line) as [c|msg|msg]; [|discriminate..].
    destruct (validationFunc cfg c) as [r|exc|msg]; [| |discriminate].
    { destruct (is_not_None _); [|discriminate].
      destruct (callable_of _) as [g|]; [|discriminate].
      destruct (g c); discriminate. }
    destruct (overflows (timeout cfg)); [discriminate|].
    unfold stopped.
    destruct (deadline_passed _ _ _); [destruct (default cfg); discriminate|].
    destruct (limit cfg) as [L|] eqn:HL; cbn [limit_reached].
    + destruct (L <=? tries + 1)%Z eqn:Hlim.
      * destruct (default cfg); [discriminate|]. intros _.
        exists L. apply Z.leb_le in Hlim. repeat split. count.
      * intros Hrun. destruct (IH _ _ Hrun) as (L' & HL' & Hd & Hreads).
        injection HL' as <-. exists L. repeat split; [exact Hd|].
        rewrite Hreads. apply Z.leb_gt in Hlim. count.
    + intros Hrun. destruct (IH _ _ Hrun) as (L' & HL' & _). discriminate.
Qed.

Lemma retry_limit_means_limit_reads_witness :
  exists L,
    limit (three_tries None) = Some L /\ default (three_tries None) = None /\
    reads (trace (snd (loop (three_tries None) 0 1 ["a"; "b"; "c"] (fresh_world []))))
    = Nat.add (reads (trace (fresh_world []))) (Z.to_nat (Z.max 1 (L - 1))).
Proof.
  apply (retry_limit_means_limit_reads (three_tries None) 0 ["a"; "b"; "c"] 1%Z
           (fresh_world [])).
  reflexivity.
Defined.

(** ** What the loop prints *)

Lemma no_print_in_transform_events cfg line :
  existsb is_print (transform_events cfg line) = false.
Proof. unfold transform_events. destruct (applyFunc cfg); reflexivity. Qed.

Lemma no_input_in_transform_events cfg line :
  existsb is_input (transform_events cfg line) = false.
Proof. unfold transform_events. destruct (applyFunc cfg); reflexivity. Qed.

Lemma no_print_in_check_events timeout w :
  existsb is_print (check_events timeout w) = false.
Proof. destruct timeout; reflexivity. Qed.

Lemma no_input_in_check_events timeout w :
  existsb is_input (check_events timeout w) = false.
Proof. destruct timeout; reflexivity. Qed.

(** Neither a print nor a read among the events that follow the read of an
    attempt. *)
Ltac quiet :=
  rewrite ?existsb_app, ?no_print_in_transform_events, ?no_input_in_transform_events,
    ?no_print_in_check_events, ?no_input_in_check_events;
  reflexivity.

(** The end of a run on the attempt that read [line]: no retry before it,
    and [tail] after the read. *)
Lemma ends_on_attempt cfg (out : Res Returned * World) w line rest tail :
  trace (snd out) = trace w ++ [EvPrint (prompt cfg) ""; EvInput line] ++ tail ->
  existsb is_print tail = false ->
  existsb is_input tail = false ->
  exists (retries : list Retry) (last : list Event) (left : list string),
    trace (snd out)
      = trace w ++ flat_map (retry_events cfg) retries
          ++ EvPrint (prompt cfg) "" :: last
    /\ Forall (is_retry cfg) retries
    /\ line :: rest = map retry_line retries ++ left
    /\ existsb is_print last = false
    /\ match left with
       | [] => last = [] /\ fst out = Exc EOFError
       | line :: _ =>
           exists tail, last = EvInput line :: tail /\ existsb is_input tail = false
       end.
Proof.
  intros Htr Hprint Hinput.
  exists [], (EvInput line :: tail), (line :: rest).
  split; [exact Htr|]. split; [constructor|]. split; [reflexivity|].
  split; [exact Hprint|]. exists tail. split; [reflexivity | exact Hinput].
Qed.

(** X3. What a run of the loop prints, and when.  The trace of a run is a
    sequence of retried attempts followed by a last prompt and what came
    after it.  Each retried attempt begins with the print of the prompt,
    without newline, followed at once by the read of its line, and ends with
    the print of the message that the validation function raised on that
    line's candidate; between the two come only the calls of the transform
    and of the validation function and the reading of the clock.  The
    retried lines are the first lines of the input, in order.  After the
    last prompt nothing more is printed: either no line is left, nothing
    else happens and the run ends with the end of input, or the next line is
    read at once, no other line is read, and the run ends on that attempt.
    So the prompt is printed before every read and once more only at the end
    of input, and a message is printed for every rejected attempt but one
    that ends the run. *)
Theorem prompt_before_each_read_message_after_each_retry
    (cfg : Config) (startTime : float) :
  forall stdin tries w,
    let run := loop cfg startTime tries stdin w in
    exists (retries : list Retry) (last : list Event) (left : list string),
      trace (snd run)
        = trace w ++ flat_map (retry_events cfg) retries
            ++ EvPrint (prompt cfg) "" :: last
      /\ Forall (is_retry cfg) retries
      /\ stdin = map retry_line retries ++ left
      /\ existsb is_print last = false
      /\ match left with
         | [] => last = [] /\ fst run = Exc EOFError
         | line :: _ =>
             exists tail, last = EvInput line :: tail /\ existsb is_input tail = false
         end.
Proof.
  induction stdin as [|line rest IH]; intros tries w; cbn zeta.
  - rewrite loop_nil. exists [], [], []. cbn. repeat split. constructor.
  - rewrite loop_cons. cbn zeta.
    destruct (if (stripped cfg line =? "")%string then default cfg else None).
    { apply ends_on_attempt with (tail := []); reflexivity. }
    destruct (candidate cfg line) as [c|msg|msg] eqn:Hc.
    2,3:(apply ends_on_attempt with (tail := transform_events cfg line);
         [trace_eq | quiet | quiet]).
    destruct (validationFunc cfg c) as [r|exc|msg] eqn:Hv.
    3:{ apply ends_on_attempt
          with (tail := transform_events cfg line ++ [EvValidationFunc c]);
          [trace_eq | quiet | quiet]. }
    { destruct (is_not_None _).
      - destruct (callable_of _) as [g|].
        + destruct (g c);
            (apply ends_on_attempt
               with (tail := transform_events cfg line
                               ++ [EvValidationFunc c; EvPostValidateApplyFunc c]);
             [trace_eq | quiet | quiet]).
        + apply ends_on_attempt
            with (tail := transform_events cfg line ++ [EvValidationFunc c]);
            [trace_eq | quiet | quiet].
      - apply ends_on_attempt
          with (tail := transform_events cfg line ++ [EvValidationFunc c]);
          [trace_eq | quiet | quiet]. }
    destruct (overflows (timeout cfg)).
    { apply ends_on_attempt
        with (tail := transform_events cfg line ++ [EvValidationFunc c]);
        [trace_eq | quiet | quiet]. }
    assert (Hstop : forall e,
               let out := stopped (default cfg) e
                            (after_check (timeout cfg)
                               (logged [EvValidationFunc c]
                                  (logged (transform_events cfg line)
                                     (logged [EvPrint (prompt cfg) ""; EvInput line] w)))) in
               trace (snd out)
               = trace w ++ [EvPrint (prompt cfg) ""; EvInput line]
                   ++ (transform_events cfg line ++ [EvValidationFunc c]
                         ++ check_events (timeout cfg) w)).
    { intros e. unfold stopped. destruct (default cfg); cbn zeta; cbn [snd].
      - rewrite trace_after_check. cbn [logged trace clock ticks check_events].
        rewrite <- !app_assoc. destruct (timeout cfg); reflexivity.
      - rewrite trace_after_check. cbn [logged trace clock ticks check_events].
        rewrite <- !app_assoc. destruct (timeout cfg); reflexivity. }
    destruct (deadline_passed _ _ _).
    { eapply ends_on_attempt; [apply Hstop | quiet | quiet]. }
    destruct (limit_reached _ _).
    { eapply ends_on_attempt; [apply Hstop | quiet | quiet]. }
    match goal with
    | |- context [loop cfg startTime (tries + 1) rest ?w3] =>
        destruct (IH (tries + 1)%Z w3) as (retries & last & left & Htr & Hall & Hin & Hpr & Hend)
    end.
    cbn zeta in Htr, Hend.
    exists (mkRetry line c exc (check_events (timeout cfg) w) :: retries), last, left.
    split; [|split; [|split; [|split]]].
    + rewrite Htr. cbn [flat_map logged trace]. unfold retry_events.
      cbn [retry_line retry_candidate retry_message retry_clock].
      rewrite trace_after_check. cbn [logged trace clock ticks].
      rewrite <- !app_assoc. cbn [app].
      destruct (timeout cfg); cbn [check_events logged trace clock ticks app];
        rewrite <- ?app_assoc; reflexivity.
    + constructor; [|exact Hall].
      unfold is_retry. cbn [retry_line retry_candidate retry_message retry_clock].
      split; [exact Hc|]. split; [exact Hv|].
      destruct (timeout cfg); cbn [check_events]; eauto.
    + cbn [map retry_line app]. now rewrite Hin.
    + exact Hpr.
    + exact Hend.
Qed.

(** ** Sessions without bounds, and the clock *)

(** X4. The loop reads the clock at most once per line it reads, and never
    when no timeout is set; it never changes what the clock will answer. *)
Theorem clock_read_at_most_once_per_line (cfg : Config) (startTime : float) :
  forall stdin tries w,
    let run := loop cfg startTime tries stdin w in
    clock (snd run) = clock w
    /\ (ticks w <= ticks (snd run))%nat
    /\ (ticks (snd run) + reads (trace w) <= ticks w + reads (trace (snd run)))%nat
    /\ (timeout cfg = None -> ticks (snd run) = ticks w).
Proof.
  induction stdin as [|line rest IH]; intros tries w; cbn zeta.
  - rewrite loop_nil. cbn [snd logged clock ticks trace]. repeat split; auto; count.
  - rewrite loop_cons. cbn zeta.
    assert (Hone : forall evs : list Event,
               (ticks w + reads (trace w) <= ticks w + reads (trace w
                  ++ [EvPrint (prompt cfg) ""; EvInput line] ++ evs))%nat)
      by (intros evs; count).
    destruct (if (stripped cfg line =? "")%string then default cfg else None).
    { cbn. repeat split; auto. apply (Hone []). }
    destruct (candidate cfg line) as [c|msg|msg].
    2,3:(cbn; repeat split; auto; rewrite <- app_assoc; apply Hone).
    destruct (validationFunc cfg c) as [r|exc|msg].
    3:{ cbn; repeat split; auto; rewrite <- !app_assoc; apply Hone. }
    { destruct (is_not_None _).
      - destruct (callable_of _) as [g|].
        + destruct (g c); cbn; repeat split; auto; rewrite <- !app_assoc; apply Hone.
        + cbn; repeat split; auto; rewrite <- !app_assoc; apply Hone.
      - cbn; repeat split; auto; rewrite <- !app_assoc; apply Hone. }
    destruct (overflows (timeout cfg)).
    { cbn; repeat split; auto; rewrite <- !app_assoc; apply Hone. }
    set (w3 := after_check _ _).
    assert (Hw3 : clock w3 = clock w
                  /\ (ticks w <= ticks w3)%nat
                  /\ (ticks w3 <= S (ticks w))%nat
                  /\ reads (trace w3) = S (reads (trace w))
                  /\ (timeout cfg = None -> ticks w3 = ticks w)).
    { subst w3.
      destruct (timeout cfg); cbn [after_check clock_read logged ticks clock trace];
        repeat split; try reflexivity; try discriminate; count. }
    destruct Hw3 as (Hc & Hle & Hlt & Hrd & Hnone).
    assert (Hstop : forall e,
               clock (snd (stopped (default cfg) e w3)) = clock w
               /\ (ticks w <= ticks (snd (stopped (default cfg) e w3)))%nat
               /\ (ticks (snd (stopped (default cfg) e w3)) + reads (trace w)
                   <= ticks w + reads (trace (snd (stopped (default cfg) e w3))))%nat
               /\ (timeout cfg = None ->
                   ticks (snd (stopped (default cfg) e w3)) = ticks w)).
    { intros e. unfold stopped. destruct (default cfg); cbn [snd];
        repeat split; auto; lia. }
    destruct (deadline_passed _ _ _); [apply Hstop|].
    destruct (limit_reached _ _); [apply Hstop|].
    destruct (IH (tries + 1)%Z (logged [EvPrint exc newline] w3))
      as (Hc' & Hle' & Hlt' & Hnone').
    cbn [logged clock ticks trace] in Hc', Hle', Hlt', Hnone'.
    rewrite reads_app in Hlt'. cbn in Hlt'.
    repeat split.
    + congruence.
    + lia.
    + lia.
    + intros HT. rewrite Hnone' by exact HT. apply Hnone. exact HT.
Qed.

(** X5. Without timeout and without limit, a rejected attempt never ends a
    run: no run raises Timeout or RetryLimit or returns the default for a
    bound.  When moreover there is no default, the validation rejects
    everything and the transform returns, the loop reads every line there
    is and ends with the end of input. *)
Theorem unbounded_loop_retries_to_end_of_input (cfg : Config) (startTime : float) :
  timeout cfg = None ->
  limit cfg = None ->
  (forall stdin tries w,
     is_bound_stop (fst (loop cfg startTime tries stdin w)) = false)
  /\ (default cfg = None -> always_rejects cfg -> transform_returns cfg ->
      forall stdin tries w,
        fst (loop cfg startTime tries stdin w) = Exc EOFError
        /\ reads (trace (snd (loop cfg startTime tries stdin w)))
           = (reads (trace w) + length stdin)%nat).
Proof.
  intros HT HL. split.
  - induction stdin as [|line rest IH]; intros tries w.
    + reflexivity.
    + rewrite loop_cons. cbn zeta.
      destruct (if (stripped cfg line =? "")%string then default cfg else None);
        [reflexivity|].
      destruct (candidate cfg line) as [c|msg|msg]; [|reflexivity..].
      destruct (validationFunc cfg c) as [r|exc|msg]; [| |reflexivity].
      { destruct (is_not_None _); [|reflexivity].
        destruct (callable_of _) as [g|]; [|reflexivity].
        destruct (g c); reflexivity. }
      rewrite HT, HL. cbn [overflows deadline_passed limit_reached]. apply IH.
  - intros Hd Hrej Htr. induction stdin as [|line rest IH]; intros tries w.
    + rewrite loop_nil. cbn [fst snd length]. split; [reflexivity | count].
    + assert (Hover : overflows (timeout cfg) = false) by (rewrite HT; reflexivity).
      destruct (loop_rejected cfg startTime Hd Hrej Htr Hover tries line rest w)
        as (c & exc & _ & _ & Heq).
      rewrite Heq, HT, HL. cbn [deadline_passed limit_reached after_check].
      cbn zeta.
      match goal with
      | |- context [loop cfg startTime (tries + 1) rest ?w3] =>
          destruct (IH (tries + 1)%Z w3) as [Hrun Hreads]
      end.
      split; [exact Hrun|]. rewrite Hreads. cbn [length]. count.
Qed.

Lemma unbounded_loop_retries_to_end_of_input_witness :
  fst (loop (mkConfig "> " None None None (PyBool true) None reject_all PyNone)
         0 0 ["a"; "b"] (fresh_world []))
  = Exc EOFError
  /\ reads (trace (snd (loop (mkConfig "> " None None None (PyBool true) None
                                reject_all PyNone)
                          0 0 ["a"; "b"] (fresh_world []))))
     = Nat.add (reads (trace (fresh_world []))) (length ["a"; "b"]).
Proof.
  apply (proj2 (unbounded_loop_retries_to_end_of_input
                  (mkConfig "> " None None None (PyBool true) None reject_all PyNone)
                  0 eq_refl eq_refl)).
  - reflexivity.
  - intros s. exists "invalid". reflexivity.
  - apply no_transform_returns. reflexivity.
Defined.

(** ** What a run returns *)

(** X6. A value that the loop returns after validation comes from the last
    line it read: that line's candidate (the line stripped, then
    transformed) was accepted by the validation function, and the value is
    the candidate itself when there is no post-validation transform, and
    what that transform returns on the candidate otherwise. *)
Theorem validated_value_comes_from_last_line (cfg : Config) (startTime : float) :
  forall stdin tries w site v,
    fst (loop cfg startTime tries stdin w) = Val (site, v) ->
    is_default_site site = false ->
    exists before line after c r,
      stdin = before ++ line :: after
      /\ reads (trace (snd (loop cfg startTime tries stdin w)))
         = (reads (trace w) + S (length before))%nat
      /\ candidate cfg line = Returns c
      /\ validationFunc cfg c = Returns r
      /\ match site with
         | Validated => is_not_None (postValidateApplyFunc cfg) = false /\ v = c
         | _ => exists post,
                  callable_of (postValidateApplyFunc cfg) = Some post
                  /\ post c = Returns v
         end.
Proof.
  induction stdin as [|line rest IH]; intros tries w site v.
  - rewrite loop_nil. discriminate.
  - rewrite loop_cons. cbn zeta.
    destruct (if (stripped cfg line =? "")%string then default cfg else None).
    { intros [= <- _]. discriminate. }
    destruct (candidate cfg line) as [c|msg|msg] eqn:Hc; [|discriminate..].
    destruct (validationFunc cfg c) as [r|exc|msg] eqn:Hv; [| |discriminate].
    { destruct (is_not_None _) eqn:Hnn.
      - destruct (callable_of _) as [g|] eqn:Hg; [|discriminate].
        destruct (g c) as [s|msg|msg] eqn:Hgc; [|discriminate..].
        intros [= <- <-] _. exists [], line, rest, c, r.
        split; [reflexivity|]. split; [cbn [length]; count|].
        split; [exact Hc|]. split; [exact Hv|]. exists g. auto.
      - intros [= <- <-] _. exists [], line, rest, c, r.
        split; [reflexivity|]. split; [cbn [length]; count|].
        split; [exact Hc|]. split; [exact Hv|]. auto. }
    assert (Hstop : forall e w3,
               fst (stopped (default cfg) e w3) = Val (site, v) ->
               is_default_site site = true).
    { intros e w3. unfold stopped. destruct (default cfg); [|discriminate].
      intros [= <- _]. reflexivity. }
    destruct (overflows (timeout cfg)); [discriminate|].
    destruct (deadline_passed _ _ _);
      [intros H Hs; apply Hstop in H; congruence|].
    destruct (limit_reached _ _);
      [intros H Hs; apply Hstop in H; congruence|].
    intros Hrun Hsite.
    destruct (IH _ _ _ _ Hrun Hsite) as (before & l & after & c' & r' & -> & Hreads & H).
    exists (line :: before), l, after, c', r'.
    split; [reflexivity|]. split; [|exact H].
    rewrite Hreads. cbn [length]. count.
Qed.

Lemma validated_value_comes_from_last_line_witness :
  exists before line after c r,
    [" x"; " 42 "; "y"] = before ++ line :: after
    /\ reads (trace (snd (loop (mkConfig "> " None None None (PyBool true) None
                                  (accept_only "42") PyNone)
                            0 0 [" x"; " 42 "; "y"] (fresh_world []))))
       = Nat.add (reads (trace (fresh_world []))) (S (length before))
    /\ candidate (mkConfig "> " None None None (PyBool true) None
                    (accept_only "42") PyNone) line = Returns c
    /\ validationFunc (mkConfig "> " None None None (PyBool true) None
                         (accept_only "42") PyNone) c = Returns r
    /\ (is_not_None (postValidateApplyFunc
                       (mkConfig "> " None None None (PyBool true) None
                          (accept_only "42") PyNone)) = false
        /\ "42" = c).
Proof.
  apply (validated_value_comes_from_last_line
           (mkConfig "> " None None None (PyBool true) None (accept_only "42") PyNone)
           0 [" x"; " 42 "; "y"] 0%Z (fresh_world []) Validated "42");
    reflexivity.
Defined.





(** ** What a run depends on *)

(** X9. The loop does not look ahead: a run that ends before the input does
    is the same run, with the same world after it, when more lines follow
    on standard input. *)
Theorem no_lookahead (cfg : Config) (startTime : float) :
  forall stdin more tries w,
    fst (loop cfg startTime tries stdin w) <> Exc EOFError ->
    loop cfg startTime tries (stdin ++ more) w = loop cfg startTime tries stdin w.
Proof.
  induction stdin as [|line rest IH]; intros more tries w.
  - rewrite loop_nil. intros H. now contradiction H.
  - cbn [app]. rewrite !loop_cons. cbn zeta.
    destruct (if (stripped cfg line =? "")%string then default cfg else None);
      [reflexivity|].
    destruct (candidate cfg line) as [c|msg|msg]; [|reflexivity..].
    destruct (validationFunc cfg c) as [r|exc|msg]; [reflexivity| |reflexivity].
    destruct (overflows (timeout cfg)); [reflexivity|].
    destruct (deadline_passed _ _ _); [reflexivity|].
    destruct (limit_reached _ _); [reflexivity|].
    apply IH.
Qed.

Lemma no_lookahead_witness :
  loop (three_tries None) 0 0 (["a"; "b"; "c"] ++ ["d"; "e"]) (fresh_world [])
  = loop (three_tries None) 0 0 ["a"; "b"; "c"] (fresh_world []).
Proof.
  apply (no_lookahead (three_tries None) 0 ["a"; "b"; "c"] ["d"; "e"] 0%Z
           (fresh_world [])).
  discriminate.
Defined.

(** X10. A run depends on the lines read only through what stripping
    leaves of them: on two inputs whose lines are the same once stripped
    (with [strip=True], lines that differ in surrounding whitespace), the
    loop ends the same way, after as many reads and clock reads. *)
Theorem outcome_depends_on_stripped_lines (cfg : Config) (startTime : float) :
  forall stdin1 stdin2 tries w1 w2,
    map (stripped cfg) stdin1 = map (stripped cfg) stdin2 ->
    clock w1 = clock w2 ->
    ticks w1 = ticks w2 ->
    fst (loop cfg startTime tries stdin1 w1) = fst (loop cfg startTime tries stdin2 w2)
    /\ clock (snd (loop cfg startTime tries stdin1 w1))
       = clock (snd (loop cfg startTime tries stdin2 w2))
    /\ ticks (snd (loop cfg startTime tries stdin1 w1))
       = ticks (snd (loop cfg startTime tries stdin2 w2)).
Proof.
  induction stdin1 as [|line1 rest1 IH]; intros [|line2 rest2] tries w1 w2 Hmap Hc Ht;
    try discriminate.
  - rewrite !loop_nil. cbn. auto.
  - cbn [map] in Hmap. injection Hmap as Hline Hrest.
    rewrite !loop_cons. cbn zeta.
    unfold candidate, transform_events. rewrite <- Hline.
    destruct (if (stripped cfg line1 =? "")%string then default cfg else None);
      [cbn; auto|].
    destruct (match applyFunc cfg with
              | Some f => f (stripped cfg line1)
              | None => Returns (stripped cfg line1)
              end) as [c|msg|msg]; [|cbn; auto..].
    destruct (validationFunc cfg c) as [r|exc|msg]; [| |cbn; auto].
    { destruct (is_not_None _); [|cbn; auto].
      destruct (callable_of _) as [g|]; [|cbn; auto].
      destruct (g c); cbn; auto. }
    destruct (overflows (timeout cfg)); [cbn; auto|].
    rewrite Hc, Ht.
    assert (Hstop : forall e evs1 evs2,
               fst (stopped (default cfg) e (after_check (timeout cfg) (logged evs1 w1)))
               = fst (stopped (default cfg) e (after_check (timeout cfg) (logged evs2 w2)))
               /\ clock (snd (stopped (default cfg) e
                                (after_check (timeout cfg) (logged evs1 w1))))
                  = clock (snd (stopped (default cfg) e
                                  (after_check (timeout cfg) (logged evs2 w2))))
               /\ ticks (snd (stopped (default cfg) e
                                (after_check (timeout cfg) (logged evs1 w1))))
                  = ticks (snd (stopped (default cfg) e
                                  (after_check (timeout cfg) (logged evs2 w2))))).
    { intros e evs1 evs2. unfold stopped.
      destruct (default cfg), (timeout cfg); cbn; auto. }
    rewrite !logged_logged.
    destruct (deadline_passed _ _ _); [apply Hstop|].
    destruct (limit_reached _ _); [apply Hstop|].
    apply IH; [exact Hrest | |]; destruct (timeout cfg); cbn; congruence.
Qed.

Lemma outcome_depends_on_stripped_lines_witness :
  fst (loop (mkConfig "> " None None None (PyBool true) None (accept_only "42") PyNone)
         0 0 ["x "; "  42"] (fresh_world []))
  = fst (loop (mkConfig "> " None None None (PyBool true) None (accept_only "42") PyNone)
           0 0 [" x"; "42  "] (fresh_world [])).
Proof.
  apply (outcome_depends_on_stripped_lines
           (mkConfig "> " None None None (PyBool true) None (accept_only "42") PyNone)
           0 ["x "; "  42"] [" x"; "42  "] 0%Z (fresh_world []) (fresh_world []));
    reflexivity.
Defined.

(** * Further properties of _genericInput *)

(** X11. A configuration error comes before everything else.  When
    [pysv._validateGenericParameters] raises, or when one of [prompt],
    [default], [timeout], [limit], [strip], [validationFunc] and
    [applyFunc] has a type its check refuses, [_genericInput] raises a
    [PySimpleValidateException] or a [PyInputPlusException] and leaves the
    world as it found it: nothing printed, nothing read, the clock not
    read.  The other arguments and the input play no part. *)
Theorem configuration_errors_precede_io
    (pysv : PySimpleValidate)
    (prompt default blank timeout limit strip whitelistRegexes blacklistRegexes
     applyFunc validationFunc postValidateApplyFunc : PyVal)
    (stdin : list string) (w : World) :
  _validateGenericParameters pysv blank strip whitelistRegexes blacklistRegexes <> None
  \/ checked_arguments_ok prompt default timeout limit strip applyFunc validationFunc
     = false ->
  exists e,
    _genericInput pysv prompt default blank timeout limit strip whitelistRegexes
      blacklistRegexes applyFunc validationFunc postValidateApplyFunc stdin w
    = (Exc e, w)
    /\ is_configuration_error e = true.
Proof.
  unfold checked_arguments_ok, _genericInput, raising, bind. intros H.
  destruct (_validateGenericParameters _ _ _ _ _) as [msg|];
    [eexists; split; reflexivity|].
  destruct H as [H|H]; [congruence|].
  cbn [ret].
  repeat match goal with
         | |- context [raise_unless ?b _] =>
             destruct b; cbn [raise_unless ret raise andb] in *;
             [|eexists; split; reflexivity]
         end.
  discriminate.
Qed.

Lemma configuration_errors_precede_io_witness :
  exists e,
    _genericInput reporting_pysv (PyStr "> ") PyNone (PyBool false) (PyStr "soon")
      PyNone (PyBool true) PyNone PyNone PyNone (PyFunction accept_all) PyNone
      ["a"] (fresh_world [0])
    = (Exc e, fresh_world [0])
    /\ is_configuration_error e = true.
Proof.
  apply (configuration_errors_precede_io reporting_pysv (PyStr "> ") PyNone
           (PyBool false) (PyStr "soon") PyNone (PyBool true) PyNone PyNone PyNone
           (PyFunction accept_all) PyNone ["a"] (fresh_world [0])).
  right. reflexivity.
Defined.

(** X12. [validationFunc] must be a plain function or a method descriptor.
    Left out (it defaults to [None]), or given as a built-in function,
    which Python could call all the same, it is refused with
    "validationFunc argument must be a function" once the arguments before
    it have passed their checks, whatever [applyFunc] is. *)
Theorem validationFunc_must_be_a_plain_function
    (pysv : PySimpleValidate)
    (prompt default blank timeout limit strip whitelistRegexes blacklistRegexes
     applyFunc validationFunc postValidateApplyFunc : PyVal)
    (stdin : list string) (w : World) :
  _validateGenericParameters pysv blank strip whitelistRegexes blacklistRegexes = None ->
  isinstance prompt [str_t] = true ->
  isinstance default [str_t; NoneType] = true ->
  isinstance timeout [int_t; float_t; NoneType] = true ->
  isinstance limit [int_t; NoneType] = true ->
  isinstance strip [str_t; NoneType; bool_t] = true ->
  validationFunc = PyNone \/ (exists f, validationFunc = PyBuiltinFunction f) ->
  _genericInput pysv prompt default blank timeout limit strip whitelistRegexes
    blacklistRegexes applyFunc validationFunc postValidateApplyFunc stdin w
  = (Exc (PyInputPlusException "validationFunc argument must be a function"), w).
Proof.
  unfold _genericInput, raising, bind. intros -> -> -> -> -> -> Hv.
  cbn [ret raise_unless].
  destruct Hv as [-> | [f ->]]; reflexivity.
Qed.

Lemma validationFunc_must_be_a_plain_function_witness :
  _genericInput reporting_pysv (PyStr "> ") PyNone (PyBool false) PyNone PyNone
    (PyBool true) PyNone PyNone (PyInt 3) (PyBuiltinFunction accept_all) PyNone
    ["a"] (fresh_world [0])
  = (Exc (PyInputPlusException "validationFunc argument must be a function"),
     fresh_world [0]).
Proof.
  apply (validationFunc_must_be_a_plain_function reporting_pysv (PyStr "> ") PyNone
           (PyBool false) PyNone PyNone (PyBool true) PyNone PyNone (PyInt 3)
           (PyBuiltinFunction accept_all) PyNone ["a"] (fresh_world [0]));
    try reflexivity.
  right. exists accept_all. reflexivity.
Defined.

(** X13. A [bool] passes for an [int]: [limit=True] and [timeout=True] get
    through the checks and act as [limit=1] and [timeout=1], [False] as
    0. *)
Theorem bool_passes_for_int
    (pysv : PySimpleValidate)
    (prompt default blank timeout limit strip whitelistRegexes blacklistRegexes
     applyFunc validationFunc postValidateApplyFunc : PyVal)
    (b : bool) (stdin : list string) (w : World) :
  _genericInput pysv prompt default blank timeout (PyBool b) strip whitelistRegexes
    blacklistRegexes applyFunc validationFunc postValidateApplyFunc stdin w
  = _genericInput pysv prompt default blank timeout (PyInt (if b then 1 else 0)) strip
      whitelistRegexes blacklistRegexes applyFunc validationFunc postValidateApplyFunc
      stdin w
  /\ _genericInput pysv prompt default blank (PyBool b) limit strip whitelistRegexes
       blacklistRegexes applyFunc validationFunc postValidateApplyFunc stdin w
     = _genericInput pysv prompt default blank (PyInt (if b then 1 else 0)) limit strip
         whitelistRegexes blacklistRegexes applyFunc validationFunc
         postValidateApplyFunc stdin w.
Proof.
  destruct b; split; reflexivity.
Qed.

(** * Further properties of the wrappers *)

(** [_genericInput] on a first line that is blank once stripped, with a
    default: one read, and the default comes back. *)
Lemma _genericInput_blank_default
    pysv prompt d blank timeout limit strip whitelistRegexes blacklistRegexes
    applyFunc f postValidateApplyFunc line rest w :
  _validateGenericParameters pysv blank strip whitelistRegexes blacklistRegexes = None ->
  isinstance prompt [str_t] = true ->
  isinstance timeout [int_t; float_t; NoneType] = true ->
  isinstance limit [int_t; NoneType] = true ->
  isinstance strip [str_t; NoneType; bool_t] = true ->
  isinstance applyFunc [FUNC_TYPE; METHOD_DESCRIPTOR_TYPE; NoneType] = true ->
  apply_strip strip line = "" ->
  _genericInput pysv prompt (PyStr d) blank timeout limit strip whitelistRegexes
    blacklistRegexes applyFunc (PyFunction f) postValidateApplyFunc (line :: rest) w
  = (Val (BlankInputDefault, d),
     logged [EvPrint (str_of prompt) ""; EvInput line] (clock_read w)).
Proof.
  intros Hok Hp Ht Hl Hs Ha Hblank.
  rewrite _genericInput_session; [|exact Hok|].
  - unfold session, bind, time_time. cbn zeta. rewrite loop_cons.
    unfold stripped. cbn -[apply_strip logged clock_read]. rewrite Hblank.
    reflexivity.
  - unfold checked_arguments_ok. rewrite Hp, Ht, Hl, Hs, Ha. reflexivity.
Qed.

(** X14. [inputYesNo] takes the first character, upper-cased, of whatever
    [_genericInput] returns, the default included: with a default and a
    first line that is blank once stripped, it reads that one line, does
    not call [validateYesNo], and returns the upper-cased first character
    of the default; when the default is the empty string, it raises an
    [IndexError]. *)
Theorem inputYesNo_takes_first_character_of_default
    (pysv : PySimpleValidate)
    (validateYesNo : string -> PyVal -> PyVal -> PyVal -> PyVal -> PyVal -> PyVal
                     -> PyVal -> CallResult)
    (str_upper : string -> string)
    (prompt yes no caseSensitive blank timeout limit strip whitelistRegexes
     blacklistRegexes applyFunc postValidateApplyFunc : PyVal)
    (d line : string) (rest : list string) (w : World) :
  _validateGenericParameters pysv blank strip whitelistRegexes blacklistRegexes = None ->
  isinstance prompt [str_t] = true ->
  isinstance timeout [int_t; float_t; NoneType] = true ->
  isinstance limit [int_t; NoneType] = true ->
  isinstance strip [str_t; NoneType; bool_t] = true ->
  isinstance applyFunc [FUNC_TYPE; METHOD_DESCRIPTOR_TYPE; NoneType] = true ->
  apply_strip strip line = "" ->
  inputYesNo pysv validateYesNo str_upper prompt yes no caseSensitive (PyStr d) blank
    timeout limit strip whitelistRegexes blacklistRegexes applyFunc
    postValidateApplyFunc (line :: rest) w
  = (match d with
     | EmptyString => IndexError "string index out of range"
     | String c _ => Result (str_upper (String c ""))
     end,
     logged [EvPrint (str_of prompt) ""; EvInput line] (clock_read w)).
Proof.
  intros Hok Hp Ht Hl Hs Ha Hblank. unfold inputYesNo.
  rewrite _genericInput_blank_default by assumption.
  destruct d; reflexivity.
Qed.

Lemma inputYesNo_takes_first_character_of_default_witness :
  inputYesNo reporting_pysv (fun _ _ _ _ _ _ _ _ => Raises "not yes or no") ascii_upper
    (PyStr "Sure? ") (PyStr "yes") (PyStr "no") (PyBool false) (PyStr "") (PyBool false)
    PyNone PyNone (PyBool true) PyNone PyNone PyNone PyNone
    ("  " :: []) (fresh_world [0])
  = (IndexError "string index out of range",
     logged [EvPrint (str_of (PyStr "Sure? ")) ""; EvInput "  "]
       (clock_read (fresh_world [0]))).
Proof.
  apply (inputYesNo_takes_first_character_of_default reporting_pysv
           (fun _ _ _ _ _ _ _ _ => Raises "not yes or no") ascii_upper
           (PyStr "Sure? ") (PyStr "yes") (PyStr "no") (PyBool false) (PyBool false)
           PyNone PyNone (PyBool true) PyNone PyNone PyNone PyNone
           "" "  " [] (fresh_world [0])); reflexivity.
Defined.

(** X15. [inputMenu] is [inputChoice] with another default prompt: for
    every argument list, [inputMenu] does what [inputChoice] does when given
    the menu text as prompt.  [numbered] and [lettered] change the text of
    the prompt and nothing else. *)
Theorem inputMenu_is_inputChoice_with_menu_prompt
    (pysv : PySimpleValidate) (choices : list string)
    (prompt default blank timeout limit strip whitelistRegexes blacklistRegexes
     applyFunc postValidateApplyFunc numbered lettered caseSensitive : PyVal)
    (stdin : list string) (w : World) :
  inputMenu pysv choices prompt default blank timeout limit strip whitelistRegexes
    blacklistRegexes applyFunc postValidateApplyFunc numbered lettered caseSensitive
    stdin w
  = inputChoice pysv choices
      (if is_default_prompt prompt
       then PyStr (inputMenu_prompt choices numbered lettered)
       else prompt)
      default blank timeout limit strip whitelistRegexes
      blacklistRegexes applyFunc postValidateApplyFunc numbered lettered caseSensitive
      stdin w.
Proof.
  unfold inputMenu, inputChoice, bind.
  destruct (raising _ w) as [[[]|e] w1]; [|reflexivity].
  destruct (is_default_prompt prompt) eqn:Hprompt.
  - reflexivity.
  - rewrite Hprompt. reflexivity.
Qed.

(** X16. [inputChoice] does not validate its default: with a default [d],
    in the choices or not, and a first line that is blank once stripped,
    it reads that one line and returns [d] without calling
    [validateChoice]. *)
Theorem inputChoice_returns_default_unvalidated
    (pysv : PySimpleValidate) (choices : list string)
    (prompt blank timeout limit strip whitelistRegexes blacklistRegexes
     applyFunc postValidateApplyFunc numbered lettered caseSensitive : PyVal)
    (d line : string) (rest : list string) (w : World) :
  _validateParamsFor_validateChoice pysv (py_choices choices) blank strip
    whitelistRegexes blacklistRegexes numbered lettered caseSensitive = None ->
  _validateGenericParameters pysv blank strip whitelistRegexes blacklistRegexes = None ->
  isinstance prompt [str_t] = true ->
  isinstance timeout [int_t; float_t; NoneType] = true ->
  isinstance limit [int_t; NoneType] = true ->
  isinstance strip [str_t; NoneType; bool_t] = true ->
  isinstance applyFunc [FUNC_TYPE; METHOD_DESCRIPTOR_TYPE; NoneType] = true ->
  apply_strip strip line = "" ->
  inputChoice pysv choices prompt (PyStr d) blank timeout limit strip
    whitelistRegexes blacklistRegexes applyFunc postValidateApplyFunc
    numbered lettered caseSensitive (line :: rest) w
  = (Val (BlankInputDefault, d),
     logged [EvPrint (if is_default_prompt prompt
                      then "Please select one of: " ++ join ", " choices ++ "."
                           ++ newline
                      else str_of prompt)%string "";
             EvInput line]
       (clock_read w)).
Proof.
  intros Hparams Hok Hp Ht Hl Hs Ha Hblank.
  unfold inputChoice, bind. rewrite Hparams. cbn [raising ret].
  rewrite _genericInput_blank_default; try assumption.
  - destruct (is_default_prompt prompt); reflexivity.
  - destruct (is_default_prompt prompt); [reflexivity | exact Hp].
Qed.

Lemma inputChoice_returns_default_unvalidated_witness :
  inputChoice reporting_pysv ["Cat"; "Dog"] (PyStr "_default") (PyStr "Horse")
    (PyBool false) PyNone PyNone (PyBool true) PyNone PyNone PyNone PyNone
    (PyBool false) (PyBool false) (PyBool false) ("" :: []) (fresh_world [0])
  = (Val (BlankInputDefault, "Horse"),
     logged [EvPrint (if is_default_prompt (PyStr "_default")
                      then "Please select one of: " ++ join ", " ["Cat"; "Dog"] ++ "."
                           ++ newline
                      else str_of (PyStr "_default"))%string "";
             EvInput ""]
       (clock_read (fresh_world [0]))).
Proof.
  apply (inputChoice_returns_default_unvalidated reporting_pysv ["Cat"; "Dog"]
           (PyStr "_default") (PyBool false) PyNone PyNone (PyBool true) PyNone PyNone
           PyNone PyNone (PyBool false) (PyBool false) (PyBool false)
           "Horse" "" [] (fresh_world [0])); reflexivity.
Defined.
